(** * starlette/config.py: the environment guard and the config resolver

    A shallow embedding of [src/starlette/config.py] and the properties of
    its two classes, [Environ] and [Config].

    Conventions of the embedding.
    - A Python [str] is a [string]; a character is a code point below 256.
    - A [dict] with [str] keys is a [gmap string _], a [set] of [str] a
      [gset string].
    - A call that may raise returns a [result]; a method of a mutable
      object takes the object's state and returns the new state next to
      its result. *)

From Stdlib Require Import String Ascii NArith ZArith List.
From Stdlib Require Import DecimalString.
From stdpp Require Import base option strings gmap.

Local Open Scope string_scope.

(** ** Exceptions and results *)

(** Whether the class of an exception derives from [TypeError], from
    [ValueError], or from neither. *)
Inductive ancestry : Type :=
| DerivesTypeError
| DerivesValueError
| DerivesNeither.

(** The exceptions of the module by their class, and any other exception
    by the name of its class and what the class derives from
    ([UnicodeDecodeError] and [json.JSONDecodeError] derive from
    [ValueError]; [FileNotFoundError], [PermissionError] and
    [UserWarning] from neither). *)
Inductive exn : Type :=
| KeyError (arg : string)
| ValueError (msg : string)
| TypeError (msg : string)
| AttributeError (msg : string)
| EnvironError (msg : string)
| OtherError (base : ancestry) (name msg : string).

(** What [except (TypeError, ValueError)] catches: the instances of the
    two classes, those of their subclasses included. *)
Definition is_type_or_value_error (e : exn) : bool :=
  match e with
  | TypeError _ | ValueError _ => true
  | OtherError DerivesTypeError _ _ | OtherError DerivesValueError _ _ => true
  | _ => false
  end.

Inductive result (A : Type) : Type :=
| Ret (a : A)
| Raise (e : exn).

Arguments Ret {A} a.
Arguments Raise {A} e.

Definition bind {A B : Type} (r : result A) (k : A -> result B) : result B :=
  match r with
  | Ret a => k a
  | Raise e => Raise e
  end.

Notation "x <- r ;; k" := (bind r (fun x => k))
  (at level 100, r at next level, right associativity).

(** ** The [str] methods the module uses *)

Module PyStr.

(** [str.isspace] on one character: the code points below 256 that Python
    counts as white space. *)
Definition isspace (c : ascii) : bool :=
  let n := N_of_ascii c in
  ((9 <=? n) && (n <=? 13) || (28 <=? n) && (n <=? 32)
   || (n =? 133) || (n =? 160))%N.

(** [str.lower] on one character: A-Z, and the upper-case letters of the
    Latin-1 block (all of 0xC0-0xDE but the multiplication sign). *)
Definition lower_char (c : ascii) : ascii :=
  let n := N_of_ascii c in
  if ((65 <=? n) && (n <=? 90)
      || (192 <=? n) && (n <=? 222) && negb (n =? 215))%N
  then ascii_of_N (n + 32)
  else c.

Fixpoint lower (s : string) : string :=
  match s with
  | EmptyString => EmptyString
  | String c r => String (lower_char c) (lower r)
  end.

Fixpoint lstrip_by (p : ascii -> bool) (s : string) : string :=
  match s with
  | EmptyString => EmptyString
  | String c r => if p c then lstrip_by p r else s
  end.

Fixpoint rstrip_by (p : ascii -> bool) (s : string) : string :=
  match s with
  | EmptyString => EmptyString
  | String c r =>
      match rstrip_by p r with
      | EmptyString => if p c then EmptyString else String c EmptyString
      | r' => String c r'
      end
  end.

Definition strip_by (p : ascii -> bool) (s : string) : string :=
  rstrip_by p (lstrip_by p s).

Fixpoint char_in (c : ascii) (chars : string) : bool :=
  match chars with
  | EmptyString => false
  | String d r => if Ascii.eqb c d then true else char_in c r
  end.

(** [s.strip()] *)
Definition strip (s : string) : string := strip_by isspace s.

(** [s.strip(chars)] *)
Definition strip_chars (chars s : string) : string :=
  strip_by (fun c => char_in c chars) s.

(** [p in s] and [s.startswith(p)] for a one-character [p]. *)
Definition contains (c : ascii) (s : string) : bool := char_in c s.

Definition startswith (c : ascii) (s : string) : bool :=
  match s with
  | EmptyString => false
  | String d _ => Ascii.eqb d c
  end.

Fixpoint endswith (c : ascii) (s : string) : bool :=
  match s with
  | EmptyString => false
  | String d EmptyString => Ascii.eqb d c
  | String _ r => endswith c r
  end.

(** [s.split(sep, 1)] for a one-character [sep]: one piece when [sep]
    does not occur, else the text before and after its first
    occurrence. *)
Fixpoint split1 (sep : ascii) (s : string) : list string :=
  match s with
  | EmptyString => [EmptyString]
  | String c r =>
      if Ascii.eqb c sep then [EmptyString; r]
      else match split1 sep r with
           | h :: t => String c h :: t
           | [] => [String c EmptyString]
           end
  end.

Definition LF : ascii := ascii_of_N 10.
Definition CR : ascii := ascii_of_N 13.

(** Text mode with the default [newline=None]: every "\r\n" and every
    lone "\r" of the file is read as "\n". *)
Fixpoint universal_newlines (s : string) : string :=
  match s with
  | EmptyString => EmptyString
  | String c r =>
      if Ascii.eqb c CR then
        match r with
        | String d r' =>
            if Ascii.eqb d LF then String LF (universal_newlines r')
            else String LF (universal_newlines r)
        | EmptyString => String LF EmptyString
        end
      else String c (universal_newlines r)
  end.

(** Cut a text after each "\n"; every line keeps its terminator. *)
Fixpoint keepends (s : string) : list string :=
  match s with
  | EmptyString => []
  | String c r =>
      if Ascii.eqb c LF then String c EmptyString :: keepends r
      else match keepends r with
           | l :: ls => String c l :: ls
           | [] => [String c EmptyString]
           end
  end.

(** [input_file.readlines()] on the text of a file. *)
Definition readlines (text : string) : list string :=
  keepends (universal_newlines text).

End PyStr.

(** ** Python values, and the callables passed as [cast]

    The values of the file and of the environment are [str]; a default is
    any object, of which the embedding has [None], [bool], [int] and
    [str]. *)

Inductive object : Type :=
| VNone
| VBool (b : bool)
| VInt (z : Z)
| VStr (s : string).

(** [str(v)], which is what an f-string writes for [{v}]. *)
Definition py_str (v : object) : string :=
  match v with
  | VNone => "None"
  | VBool true => "True"
  | VBool false => "False"
  | VInt z => NilZero.string_of_int (Z.to_int z)
  | VStr s => s
  end.

(** The truth value of [v], which is what [bool(v)] returns. *)
Definition truthy (v : object) : bool :=
  match v with
  | VNone => false
  | VBool b => b
  | VInt z => negb (z =? 0)%Z
  | VStr s => negb (String.eqb s "")
  end.

(** A callable is the builtin [bool], which [_perform_cast] recognises by
    identity, or any other callable: its [__name__], when it has one, and
    what a call with one argument does. *)
Inductive callable : Type :=
| py_bool
| py_callable (name : option string) (call : object -> result object).

Definition __name__ (f : callable) : result string :=
  match f with
  | py_bool => Ret "bool"
  | py_callable (Some n) _ => Ret n
  | py_callable None _ =>
      Raise (AttributeError "object has no attribute '__name__'")
  end.

Definition call (f : callable) (v : object) : result object :=
  match f with
  | py_bool => Ret (VBool (truthy v))
  | py_callable _ g => g v
  end.

Definition DQUOTE : ascii := ascii_of_N 34.

(** ** class Environ *)

Module Environ.

Record t : Type := mk {
  _environ : gmap string string;
  _has_been_read : gset string
}.

(** A method's outcome: what it returns or raises, and the object after. *)
Definition M (A : Type) : Type := (result A * t)%type.

Definition __init__ (environ : gmap string string) : t :=
  {| _environ := environ; _has_been_read := ∅ |}.

(** [dict.__getitem__] and [dict.__delitem__] of the wrapped mapping. *)
Definition dict_getitem (d : gmap string string) (key : string) : result string :=
  match d !! key with
  | Some v => Ret v
  | None => Raise (KeyError key)
  end.

Definition dict_delitem (d : gmap string string) (key : string)
  : result (gmap string string) :=
  match d !! key with
  | Some _ => Ret (delete key d)
  | None => Raise (KeyError key)
  end.

Definition __getitem__ (key : string) (self : t) : M string :=
  let self := {| _environ := _environ self;
                 _has_been_read := {[key]} ∪ _has_been_read self |} in
  (dict_getitem (_environ self) key, self).

Definition __setitem__ (key value : string) (self : t) : M unit :=
  if decide (key ∈ _has_been_read self) then
    (Raise (EnvironError
       ("Attempting to set environ['" +:+ key
        +:+ "'], but the value has already been read.")), self)
  else
    (Ret (), {| _environ := <[key:=value]> (_environ self);
                _has_been_read := _has_been_read self |}).

Definition __delitem__ (key : string) (self : t) : M unit :=
  if decide (key ∈ _has_been_read self) then
    (Raise (EnvironError
       ("Attempting to delete environ['" +:+ key
        +:+ "'], but the value has already been read.")), self)
  else
    match dict_delitem (_environ self) key with
    | Ret d => (Ret (), {| _environ := d;
                           _has_been_read := _has_been_read self |})
    | Raise e => (Raise e, self)
    end.

(** [iter(self._environ)], as the list of the keys it yields (a [gmap]
    does not keep them in the order they were inserted). *)
Definition __iter__ (self : t) : M (list string) :=
  (Ret (fst <$> map_to_list (_environ self)), self).

Definition __len__ (self : t) : M nat :=
  (Ret (size (_environ self)), self).

(** [Environ] defines no [__contains__] of its own. It derives from
    [typing.MutableMapping], so [key in environ] runs the method of
    [collections.abc.Mapping],

      def __contains__(self, key):
          try:
              self[key]
          except KeyError:
              return False
          else:
              return True

    where [self[key]] is the [__getitem__] above. *)
Definition __contains__ (key : string) (self : t) : M bool :=
  match __getitem__ key self with
  | (Ret _, self) => (Ret true, self)
  | (Raise (KeyError _), self) => (Ret false, self)
  | (Raise e, self) => (Raise e, self)
  end.

(** The operations of the class, and a run of a program of them. *)
Inductive op : Type :=
| OpGet (key : string)
| OpSet (key value : string)
| OpDelete (key : string)
| OpContains (key : string)
| OpIterate
| OpSize.

Definition step (o : op) (self : t) : t :=
  match o with
  | OpGet k => snd (__getitem__ k self)
  | OpSet k v => snd (__setitem__ k v self)
  | OpDelete k => snd (__delitem__ k self)
  | OpContains k => snd (__contains__ k self)
  | OpIterate => snd (__iter__ self)
  | OpSize => snd (__len__ self)
  end.

Definition run (ops : list op) (self : t) : t :=
  fold_left (fun s o => step o s) ops self.

End Environ.

(** ** The mapping a [Config] reads the environment from

    [Config.__init__] takes any [typing.Mapping[str, str]]; its default is
    the module's [environ], an [Environ]. The two kinds the embedding
    covers are a plain [dict] and an [Environ]. *)

Inductive mapping : Type :=
| Dict (d : gmap string string)
| Guarded (e : Environ.t).

(** [key in m] *)
Definition mapping_contains (key : string) (m : mapping) : result bool * mapping :=
  match m with
  | Dict d => (Ret (bool_decide (is_Some (d !! key))), m)
  | Guarded e => let '(r, e) := Environ.__contains__ key e in (r, Guarded e)
  end.

(** [m[key]] *)
Definition mapping_getitem (key : string) (m : mapping) : result string * mapping :=
  match m with
  | Dict d => (Environ.dict_getitem d key, m)
  | Guarded e => let '(r, e) := Environ.__getitem__ key e in (r, Guarded e)
  end.

(** The entries of the mapping, whichever kind it is. *)
Definition mapping_items (m : mapping) : gmap string string :=
  match m with
  | Dict d => d
  | Guarded e => Environ._environ e
  end.

(** ** class Config *)

Module Config.

Record t : Type := mk {
  environ : mapping;
  env_prefix : string;
  file_values : gmap string string
}.

Definition M (A : Type) : Type := (result A * t)%type.

Definition with_environ (self : t) (m : mapping) : t :=
  {| environ := m; env_prefix := env_prefix self;
     file_values := file_values self |}.

(** The two characters of the argument of [strip] in [_read_file]. *)
Definition quote_chars : string := String DQUOTE "'".

(** The body of the loop of [_read_file], on one line of the file. *)
Definition read_line (file_values : gmap string string) (line : string)
  : result (gmap string string) :=
  let line := PyStr.strip line in
  if PyStr.contains "=" line && negb (PyStr.startswith "#" line) then
    match PyStr.split1 "=" line with
    | [key; value] =>
        let key := PyStr.strip key in
        let value := PyStr.strip_chars quote_chars (PyStr.strip value) in
        Ret (<[key:=value]> file_values)
    | _ => Raise (ValueError "not enough values to unpack (expected 2, got 1)")
    end
  else Ret file_values.

Fixpoint read_lines (file_values : gmap string string) (lines : list string)
  : result (gmap string string) :=
  match lines with
  | [] => Ret file_values
  | line :: rest =>
      file_values <- read_line file_values line ;;
      read_lines file_values rest
  end.

(** [_read_file], on the text of the file it opens. *)
Definition parse (text : string) : result (gmap string string) :=
  read_lines ∅ (PyStr.readlines text).

(** A file that is there: the text that [open] and the decoding of
    [readlines] deliver, or the error that one of them raises
    ([PermissionError], [UnicodeDecodeError]). *)
Inductive file : Type :=
| Text (text : string)
| Unreadable (e : exn).

(** [_read_file], on the files of the machine: what each path that is a
    file holds. *)
Definition _read_file (fs : gmap string file) (file_name : string)
  : result (gmap string string) :=
  match fs !! file_name with
  | Some (Text text) => parse text
  | Some (Unreadable e) => Raise e
  | None => Raise (OtherError DerivesNeither "FileNotFoundError" file_name)
  end.

(** [__init__] returns the object and the warnings it issued. [warn] is
    [warnings.warn] under the filters in force: it returns, or, under a
    filter that turns warnings into errors, raises. *)
Definition __init__ (fs : gmap string file) (warn : string -> result unit)
  (env_file : option string)
  (environ : mapping) (env_prefix : string) (warn_missing : bool)
  : result (t * list string) :=
  let self := {| environ := environ; env_prefix := env_prefix;
                 file_values := ∅ |} in
  match env_file with
  | Some env_file =>
      if negb (bool_decide (is_Some (fs !! env_file))) then
        if warn_missing then
          _ <- warn (env_file +:+ " not found") ;;
          Ret (self, [env_file +:+ " not found"])
        else Ret (self, [])
      else
        values <- _read_file fs env_file ;;
        Ret ({| environ := environ; env_prefix := env_prefix;
                file_values := values |}, [])
  | None => Ret (self, [])
  end.

(** The [mapping] of the boolean branch of [_perform_cast]. *)
Definition bool_mapping : gmap string bool :=
  <["0":=false]> (<["false":=false]> (<["1":=true]> (<["true":=true]> ∅))).

Definition _perform_cast (key : string) (value : object) (cast : option callable)
  : result object :=
  match cast, value with
  | None, _ => Ret value
  | _, VNone => Ret value
  | Some py_bool, VStr s =>
      let value := PyStr.lower s in
      match bool_mapping !! value with
      | None =>
          Raise (ValueError
            ("Config '" +:+ key +:+ "' has value '" +:+ value
             +:+ "'. Not a valid bool."))
      | Some b => Ret (VBool b)
      end
  | Some cast, _ =>
      match call cast value with
      | Ret v => Ret v
      | Raise e =>
          if is_type_or_value_error e then
            name <- __name__ cast ;;
            Raise (ValueError
              ("Config '" +:+ key +:+ "' has value '" +:+ py_str value
               +:+ "'. Not a valid " +:+ name +:+ "."))
          else Raise e
      end
  end.

(** [default] is [None] when the caller passes none, so that the parameter
    keeps its default, the class [undefined]. *)
Definition get (key : string) (cast : option callable) (default : option object)
  (self : t) : M object :=
  let key := env_prefix self +:+ key in
  match mapping_contains key (environ self) with
  | (Raise e, m) => (Raise e, with_environ self m)
  | (Ret true, m) =>
      match mapping_getitem key m with
      | (Raise e, m) => (Raise e, with_environ self m)
      | (Ret value, m) =>
          (_perform_cast key (VStr value) cast, with_environ self m)
      end
  | (Ret false, m) =>
      let self := with_environ self m in
      match file_values self !! key with
      | Some value => (_perform_cast key (VStr value) cast, self)
      | None =>
          match default with
          | Some default => (_perform_cast key default cast, self)
          | None =>
              (Raise (KeyError
                 ("Config '" +:+ key +:+ "' is missing, and has no default.")),
               self)
          end
      end
  end.

Definition __call__ (key : string) (cast : option callable)
  (default : option object) (self : t) : M object :=
  get key cast default self.

End Config.

(** ** What the properties are stated with *)

(** The value [Config.get] resolves [key] to: the environment's, else the
    file's, else the default the caller supplied. *)
Inductive resolves (self : Config.t) (key : string) (default : option object)
  : object -> Prop :=
| from_environ s :
    mapping_items (Config.environ self) !! (Config.env_prefix self +:+ key)
    = Some s ->
    resolves self key default (VStr s)
| from_file s :
    mapping_items (Config.environ self) !! (Config.env_prefix self +:+ key)
    = None ->
    Config.file_values self !! (Config.env_prefix self +:+ key) = Some s ->
    resolves self key default (VStr s)
| from_default d :
    mapping_items (Config.environ self) !! (Config.env_prefix self +:+ key)
    = None ->
    Config.file_values self !! (Config.env_prefix self +:+ key) = None ->
    default = Some d ->
    resolves self key default d.

(** [s] is made of characters of [p] only. *)
Fixpoint all_chars (p : ascii -> bool) (s : string) : bool :=
  match s with
  | EmptyString => true
  | String c r => p c && all_chars p r
  end.

Definition dq : string := String DQUOTE "".
Definition nl : string := String PyStr.LF "".

Definition sample_file : string :=
  "A=1" +:+ nl +:+ "# comment" +:+ nl
  +:+ "B = " +:+ dq +:+ "hello world" +:+ dq +:+ nl
  +:+ nl +:+ "C=foo=bar" +:+ nl.

Definition sample_values : gmap string string :=
  <["C":="foo=bar"]> (<["B":="hello world"]> (<["A":="1"]> ∅)).

(** A cast of the caller's own: the number a string of decimal digits
    writes. *)
Fixpoint digits (acc : Z) (s : string) : option Z :=
  match s with
  | EmptyString => Some acc
  | String c r =>
      let n := N_of_ascii c in
      if ((48 <=? n) && (n <=? 57))%N
      then digits (10 * acc + Z.of_N (n - 48)) r
      else None
  end.

Definition port : callable :=
  py_callable (Some "port") (fun v =>
    match v with
    | VStr EmptyString => Raise (ValueError "empty")
    | VStr s =>
        match digits 0 s with
        | Some z => Ret (VInt z)
        | None => Raise (ValueError "not a number")
        end
    | _ => Raise (TypeError "not a string")
    end).

Definition sample_fs : gmap string Config.file :=
  <["bad.env":=Config.Unreadable
      (OtherError DerivesValueError "UnicodeDecodeError" "invalid start byte")]>
    (<[".env":=Config.Text sample_file]> ∅).

(** [warnings.warn] under the default filters, and under [error]. *)
Definition warn_shown (msg : string) : result unit := Ret ().

Definition warn_raised (msg : string) : result unit :=
  Raise (OtherError DerivesNeither "UserWarning" msg).

(** A cast that fails with an error of a subclass of [ValueError]. *)
Definition json_loads : callable :=
  py_callable (Some "loads") (fun v =>
    Raise (OtherError DerivesValueError "JSONDecodeError" "Expecting value")).

Definition sample_environ : gmap string string :=
  <["APP_PORT":="80a"]> (<["APP_DEBUG":="Yes"]> ∅).

Definition sample_config : Config.t :=
  {| Config.environ := Guarded (Environ.__init__ sample_environ);
     Config.env_prefix := "APP_";
     Config.file_values := <["APP_WORKERS":="4"]> (<["APP_PORT":="8080"]> ∅) |}.

(** ** The methods [Environ] inherits

    [Environ] derives from [typing.MutableMapping], and defines the five
    abstract methods only. The other methods of a mapping are those of
    [collections.abc.Mapping] and [collections.abc.MutableMapping], which
    call the five. *)

Module Mixin.
Import Environ.

(** [Mapping.get]:

      def get(self, key, default=None):
          try:
              return self[key]
          except KeyError:
              return default
*)
Definition get (key : string) (default : object) (self : t) : M object :=
  match __getitem__ key self with
  | (Ret value, self) => (Ret (VStr value), self)
  | (Raise (KeyError _), self) => (Ret default, self)
  | (Raise e, self) => (Raise e, self)
  end.

(** [MutableMapping.pop]; [default] is [None] when the caller passes none:

      def pop(self, key, default=__marker):
          try:
              value = self[key]
          except KeyError:
              if default is self.__marker:
                  raise
              return default
          else:
              del self[key]
              return value
*)
Definition pop (key : string) (default : option object) (self : t) : M object :=
  match __getitem__ key self with
  | (Raise (KeyError k), self) =>
      match default with
      | None => (Raise (KeyError k), self)
      | Some default => (Ret default, self)
      end
  | (Raise e, self) => (Raise e, self)
  | (Ret value, self) =>
      match __delitem__ key self with
      | (Raise e, self) => (Raise e, self)
      | (Ret _, self) => (Ret (VStr value), self)
      end
  end.

(** [MutableMapping.setdefault]:

      def setdefault(self, key, default=None):
          try:
              return self[key]
          except KeyError:
              self[key] = default
          return default
*)
Definition setdefault (key default : string) (self : t) : M string :=
  match __getitem__ key self with
  | (Ret value, self) => (Ret value, self)
  | (Raise (KeyError _), self) =>
      match __setitem__ key default self with
      | (Raise e, self) => (Raise e, self)
      | (Ret _, self) => (Ret default, self)
      end
  | (Raise e, self) => (Raise e, self)
  end.

(** [MutableMapping.update], on pairs:

      for key, value in other:
          self[key] = value
*)
Fixpoint update (other : list (string * string)) (self : t) : M unit :=
  match other with
  | [] => (Ret (), self)
  | (key, value) :: rest =>
      match __setitem__ key value self with
      | (Raise e, self) => (Raise e, self)
      | (Ret _, self) => update rest self
      end
  end.

End Mixin.

(** The keys a program of operations passes to [__getitem__], itself or
    through a membership test. *)
Definition op_reads (o : Environ.op) : gset string :=
  match o with
  | Environ.OpGet k | Environ.OpContains k => {[k]}
  | _ => ∅
  end.

Fixpoint keys_read (ops : list Environ.op) : gset string :=
  match ops with
  | [] => ∅
  | o :: rest => op_reads o ∪ keys_read rest
  end.

(** A cast that fails with an error [_perform_cast] does not catch, and
    one that has no [__name__]. *)
Definition level : callable :=
  py_callable (Some "level") (fun v =>
    match v with
    | VStr "debug" => Ret (VInt 10)
    | VStr "info" => Ret (VInt 20)
    | VStr s => Raise (KeyError s)
    | _ => Raise (TypeError "not a string")
    end).

Definition nameless : callable :=
  py_callable None (fun _ => Raise (ValueError "no")).

(** [s] has no character of the set [p] at either end. *)
Definition bare (p : ascii -> bool) (s : string) : Prop :=
  forall c, p c = true ->
    PyStr.startswith c s = false /\ PyStr.endswith c s = false.

Definition is_quote (c : ascii) : bool := PyStr.char_in c Config.quote_chars.

(** A key as [_read_file] stores them: it has no "=", does not start
    with "#", and has no white space at either end. *)
Definition clean_key (k : string) : Prop :=
  PyStr.contains "=" k = false
  /\ PyStr.startswith "#" k = false
  /\ bare PyStr.isspace k.

(** ** Running the definitions on small inputs *)

Example parse_sample : Config.parse sample_file = Ret sample_values.
Proof. vm_compute. reflexivity. Qed.

Example strip_tabs : PyStr.strip (String (ascii_of_N 9) " a b  ") = "a b".
Proof. reflexivity. Qed.

Example lower_mixed : PyStr.lower "TrUe" = "true".
Proof. reflexivity. Qed.

Example split1_twice : PyStr.split1 "=" "C=foo=bar" = ["C"; "foo=bar"].
Proof. reflexivity. Qed.

Example readlines_mixed :
  PyStr.readlines ("a" +:+ String PyStr.CR nl +:+ "b" +:+ String PyStr.CR "c")
  = ["a" +:+ nl; "b" +:+ nl; "c"].
Proof. reflexivity. Qed.

(** A session with an [Environ]: writes before a read go through, and a
    key is closed to writes once it was read or tested for. *)
Example environ_session :
  let e := Environ.__init__ ∅ in
  let e := snd (Environ.__setitem__ "TESTING" "True" e) in
  let e := snd (Environ.__setitem__ "GONE" "123" e) in
  let e := snd (Environ.__delitem__ "GONE" e) in
  let '(r1, e) := Environ.__getitem__ "TESTING" e in
  let '(r2, e) := Environ.__contains__ "GONE" e in
  r1 = Ret "True"
  /\ r2 = Ret false
  /\ fst (Environ.__setitem__ "TESTING" "False" e)
     = Raise (EnvironError
         "Attempting to set environ['TESTING'], but the value has already been read.")
  /\ fst (Environ.__delitem__ "GONE" e)
     = Raise (EnvironError
         "Attempting to delete environ['GONE'], but the value has already been read.")
  /\ fst (Environ.__setitem__ "OTHER" "1" e) = Ret ().
Proof. vm_compute. repeat split; reflexivity. Qed.

Example init_reads_file :
  Config.__init__ sample_fs warn_shown (Some ".env") (Dict ∅) "" false
  = Ret ({| Config.environ := Dict ∅; Config.env_prefix := "";
            Config.file_values := sample_values |}, []).
Proof. vm_compute. reflexivity. Qed.

Example init_missing_file :
  Config.__init__ sample_fs warn_shown (Some "prod.env") (Dict ∅) "" true
  = Ret ({| Config.environ := Dict ∅; Config.env_prefix := "";
            Config.file_values := ∅ |}, ["prod.env not found"])
  /\ Config.__init__ sample_fs warn_shown (Some "prod.env") (Dict ∅) "" false
     = Ret ({| Config.environ := Dict ∅; Config.env_prefix := "";
               Config.file_values := ∅ |}, []).
Proof. vm_compute. split; reflexivity. Qed.

(** ** Properties of [Environ] *)

Module EnvironFacts.
Import Environ.

Lemma getitem_eq key self :
  __getitem__ key self
  = (dict_getitem (_environ self) key,
     {| _environ := _environ self;
        _has_been_read := {[key]} ∪ _has_been_read self |}).
Proof. reflexivity. Qed.

Lemma contains_eq key self :
  __contains__ key self
  = (Ret (bool_decide (is_Some (_environ self !! key))),
     {| _environ := _environ self;
        _has_been_read := {[key]} ∪ _has_been_read self |}).
Proof.
  unfold __contains__, __getitem__, dict_getitem; simpl.
  destruct (_environ self !! key) as [v|] eqn:E.
  - rewrite bool_decide_eq_true_2 by eauto. reflexivity.
  - rewrite bool_decide_eq_false_2 by (intros [? ?]; discriminate). reflexivity.
Qed.

Lemma setitem_read key value self :
  key ∈ _has_been_read self ->
  __setitem__ key value self
  = (Raise (EnvironError
       ("Attempting to set environ['" +:+ key
        +:+ "'], but the value has already been read.")), self).
Proof. intros H. unfold __setitem__. rewrite decide_True by done. reflexivity. Qed.

Lemma delitem_read key self :
  key ∈ _has_been_read self ->
  __delitem__ key self
  = (Raise (EnvironError
       ("Attempting to delete environ['" +:+ key
        +:+ "'], but the value has already been read.")), self).
Proof. intros H. unfold __delitem__. rewrite decide_True by done. reflexivity. Qed.

(** No operation takes a key out of the set of the keys that were read. *)
Lemma step_read key o self :
  key ∈ _has_been_read self -> key ∈ _has_been_read (step o self).
Proof.
  intros H. destruct o as [k|k v|k|k| |]; simpl; try done.
  - set_solver.
  - unfold __setitem__. destruct (decide _); done.
  - unfold __delitem__. destruct (decide _); [done|].
    destruct (dict_delitem _ _); done.
  - rewrite contains_eq. simpl. set_solver.
Qed.

Lemma run_read key ops : forall self,
  key ∈ _has_been_read self -> key ∈ _has_been_read (run ops self).
Proof.
  induction ops as [|o ops IH]; intros self H; simpl; [done|].
  apply IH, step_read, H.
Qed.

Lemma getitem_marks key self : key ∈ _has_been_read (snd (__getitem__ key self)).
Proof. simpl. set_solver. Qed.

(** C3. Once [key] has been read by [__getitem__], whether the read returned
    a value or raised, and whatever operations ran since, [__setitem__] and
    [__delitem__] on [key] raise [EnvironError], and the object they leave is
    the object they found: the wrapped mapping and the set of the keys read
    are those of before the call. *)
Theorem write_after_read_fails key value ops self :
  let self' := run ops (snd (__getitem__ key self)) in
  __setitem__ key value self'
  = (Raise (EnvironError
       ("Attempting to set environ['" +:+ key
        +:+ "'], but the value has already been read.")), self')
  /\ __delitem__ key self'
     = (Raise (EnvironError
          ("Attempting to delete environ['" +:+ key
           +:+ "'], but the value has already been read.")), self').
Proof.
  intros self'.
  assert (key ∈ _has_been_read self') as H
    by apply run_read, getitem_marks.
  split; [apply setitem_read | apply delitem_read]; exact H.
Qed.

(** C4, as the claim states it, fails: on an [Environ] over an empty
    mapping where nothing was read, [key in environ] adds the key to the
    set of the keys read, and the [__setitem__] that follows raises. *)
Lemma contains_marks_read_example :
  let self := __init__ ∅ in
  let self' := snd (__contains__ "K" self) in
  ("K" ∉ _has_been_read self)
  /\ fst (__contains__ "K" self) = Ret false
  /\ _has_been_read self' <> _has_been_read self
  /\ fst (__setitem__ "K" "v" self')
     = Raise (EnvironError
         "Attempting to set environ['K'], but the value has already been read.").
Proof.
  intros self self'.
  split; [apply not_elem_of_empty|]. split; [reflexivity|]. split.
  - intros E. assert ("K" ∈ _has_been_read self') as H.
    { subst self'. rewrite contains_eq. simpl. set_solver. }
    rewrite E in H. revert H. apply not_elem_of_empty.
  - reflexivity.
Qed.

(** C4, amended. The membership test is the one [Environ] inherits from
    [Mapping], which evaluates [self[key]]: it answers whether [key] is in
    the wrapped mapping, marks [key] as read, and changes nothing else
    (the wrapped mapping and the marks of the other keys stay). So
    [__setitem__] on [key] after a membership test on [key] raises
    [EnvironError]. *)
Theorem contains_marks_read key value self :
  let self' := snd (__contains__ key self) in
  fst (__contains__ key self)
  = Ret (bool_decide (is_Some (_environ self !! key)))
  /\ _environ self' = _environ self
  /\ (forall k, k ∈ _has_been_read self' <-> k = key \/ k ∈ _has_been_read self)
  /\ __setitem__ key value self'
     = (Raise (EnvironError
          ("Attempting to set environ['" +:+ key
           +:+ "'], but the value has already been read.")), self').
Proof.
  rewrite contains_eq. simpl.
  split; [reflexivity|]. split; [reflexivity|]. split.
  - intros k. set_solver.
  - apply setitem_read. simpl. set_solver.
Qed.

(** C5. [__getitem__] marks the key before it looks it up: on a key the
    wrapped mapping does not hold it raises [KeyError] and the key is in
    the set of the keys read all the same, so that [__setitem__] and
    [__delitem__] on that key raise [EnvironError] from then on. *)
Theorem getitem_missing_marks key value ops self :
  _environ self !! key = None ->
  let self1 := snd (__getitem__ key self) in
  let self' := run ops self1 in
  fst (__getitem__ key self) = Raise (KeyError key)
  /\ (key ∈ _has_been_read self1)
  /\ _environ self1 = _environ self
  /\ fst (__setitem__ key value self')
     = Raise (EnvironError
         ("Attempting to set environ['" +:+ key
          +:+ "'], but the value has already been read."))
  /\ fst (__delitem__ key self')
     = Raise (EnvironError
         ("Attempting to delete environ['" +:+ key
          +:+ "'], but the value has already been read.")).
Proof.
  intros Hnone self1 self'.
  split. { simpl. unfold dict_getitem. rewrite Hnone. reflexivity. }
  split. { apply getitem_marks. }
  split. { reflexivity. }
  assert (key ∈ _has_been_read self') as H
    by apply run_read, getitem_marks.
  rewrite (setitem_read key value self' H), (delitem_read key self' H).
  split; reflexivity.
Qed.

Lemma getitem_missing_marks_witness :
  let self := __init__ (<["HOME":="/root"]> ∅) in
  fst (__getitem__ "DEBUG" self) = Raise (KeyError "DEBUG")
  /\ fst (__setitem__ "DEBUG" "1" (run [OpSize] (snd (__getitem__ "DEBUG" self))))
     = Raise (EnvironError
         "Attempting to set environ['DEBUG'], but the value has already been read.").
Proof.
  intros self.
  destruct (getitem_missing_marks "DEBUG" "1" [OpSize] self) as (H1 & _ & _ & H2 & _).
  - reflexivity.
  - split; [exact H1 | exact H2].
Defined.

(** C10. On a key that was not read, [__setitem__] returns, and the
    [__getitem__] that follows returns the value that was set. *)
Theorem set_then_get key value self :
  key ∉ _has_been_read self ->
  fst (__setitem__ key value self) = Ret ()
  /\ fst (__getitem__ key (snd (__setitem__ key value self))) = Ret value.
Proof.
  intros H. unfold __setitem__. rewrite decide_False by done. simpl.
  split; [reflexivity|].
  unfold dict_getitem. rewrite lookup_insert_eq. reflexivity.
Qed.

Lemma set_then_get_witness :
  fst (__getitem__ "TESTING"
         (snd (__setitem__ "TESTING" "True" (__init__ ∅)))) = Ret "True".
Proof.
  apply (set_then_get "TESTING" "True" (__init__ ∅)).
  simpl. apply not_elem_of_empty.
Defined.

End EnvironFacts.

(** ** Properties of the [str] methods *)

Module PyStrFacts.
Import PyStr.

Lemma eqb_true_eq (c d : ascii) : Ascii.eqb c d = true -> c = d.
Proof. apply Ascii.eqb_eq. Qed.

(** [split] with a limit of one cuts at the first separator, and gives two
    pieces as soon as there is one. *)
Lemma split1_found sep s :
  contains sep s = true ->
  exists a b, split1 sep s = [a; b]
              /\ s = a +:+ String sep b
              /\ contains sep a = false.
Proof.
  unfold contains. induction s as [|c r IH]; simpl; [discriminate|].
  rewrite (Ascii.eqb_sym sep c).
  destruct (Ascii.eqb c sep) eqn:E; intros H.
  - apply eqb_true_eq in E. subst c. exists "", r. auto.
  - destruct (IH H) as (a & b & Hs & Hr & Ha).
    exists (String c a), b. rewrite Hs.
    split; [reflexivity|]. split.
    + change (String c r = String c (a +:+ String sep b)).
      f_equal. exact Hr.
    + simpl. rewrite (Ascii.eqb_sym sep c), E. exact Ha.
Qed.

Lemma split1_not_found sep s :
  contains sep s = false -> split1 sep s = [s].
Proof.
  unfold contains. induction s as [|c r IH]; simpl; [reflexivity|].
  rewrite (Ascii.eqb_sym sep c).
  destruct (Ascii.eqb c sep); [discriminate|].
  intros H. rewrite (IH H). reflexivity.
Qed.

Section Strip.

Variable p : ascii -> bool.

(** [lstrip] and [rstrip] take a run of characters of the set off one end,
    and all of it. *)
Lemma lstrip_by_decomp s :
  exists a, s = a +:+ lstrip_by p s /\ all_chars p a = true.
Proof.
  induction s as [|c r [a [Hr Ha]]]; simpl.
  - exists "". auto.
  - destruct (p c) eqn:E.
    + exists (String c a). split.
      * change (String c r = String c (a +:+ lstrip_by p r)).
        f_equal. exact Hr.
      * simpl. rewrite E. exact Ha.
    + exists "". auto.
Qed.

Lemma lstrip_by_start s c :
  p c = true -> startswith c (lstrip_by p s) = false.
Proof.
  intros Hc. induction s as [|d r IH]; simpl; [reflexivity|].
  destruct (p d) eqn:E; [exact IH|]. simpl.
  destruct (Ascii.eqb d c) eqn:Ed; [|reflexivity].
  apply eqb_true_eq in Ed. congruence.
Qed.

Lemma rstrip_by_decomp s :
  exists b, s = rstrip_by p s +:+ b /\ all_chars p b = true.
Proof.
  induction s as [|c r [b [Hr Hb]]]; simpl.
  - exists "". auto.
  - destruct (rstrip_by p r) as [|d r'] eqn:E.
    + change (r = b) in Hr. subst b. destruct (p c) eqn:Ec.
      * exists (String c r). split; [reflexivity|].
        simpl. rewrite Ec. exact Hb.
      * exists r. auto.
    + exists b. split; [|exact Hb].
      change (String c r = String c (String d r' +:+ b)).
      f_equal. exact Hr.
Qed.

Lemma rstrip_by_end s c :
  p c = true -> endswith c (rstrip_by p s) = false.
Proof.
  intros Hc. induction s as [|d r IH]; simpl; [reflexivity|].
  destruct (rstrip_by p r) as [|e r'] eqn:E.
  - destruct (p d) eqn:Ed; [reflexivity|]. simpl.
    destruct (Ascii.eqb d c) eqn:Edc; [|reflexivity].
    apply eqb_true_eq in Edc. congruence.
  - exact IH.
Qed.

Lemma rstrip_by_start s c :
  startswith c s = false -> startswith c (rstrip_by p s) = false.
Proof.
  destruct s as [|d r]; simpl; [reflexivity|]. intros H.
  destruct (rstrip_by p r); [destruct (p d)|]; simpl; auto.
Qed.

(** [strip]: what is left has no character of the set at either end, and
    what was taken off is made of characters of the set. *)
Lemma strip_by_decomp s :
  exists a b, s = a +:+ strip_by p s +:+ b
              /\ all_chars p a = true /\ all_chars p b = true.
Proof.
  unfold strip_by.
  destruct (lstrip_by_decomp s) as (a & Hs & Ha).
  destruct (rstrip_by_decomp (lstrip_by p s)) as (b & Hl & Hb).
  exists a, b. rewrite <- Hl, <- Hs. auto.
Qed.

Lemma strip_by_ends s c :
  p c = true ->
  startswith c (strip_by p s) = false /\ endswith c (strip_by p s) = false.
Proof.
  intros Hc. unfold strip_by. split.
  - apply rstrip_by_start, lstrip_by_start, Hc.
  - apply rstrip_by_end, Hc.
Qed.

End Strip.

End PyStrFacts.

(** ** Properties of [Config] *)

Module ConfigFacts.
Import PyStr Config.

(** *** Reading the environment *)

(** [key in m] answers for the entries of [m], and [m[key]] reads them;
    neither changes the entries, though on an [Environ] both mark [key]. *)
Lemma mapping_contains_eq key m :
  exists m',
    mapping_contains key m
    = (Ret (bool_decide (is_Some (mapping_items m !! key))), m')
    /\ mapping_items m' = mapping_items m.
Proof.
  destruct m as [d|e]; simpl.
  - eauto.
  - rewrite EnvironFacts.contains_eq. eauto.
Qed.

Lemma mapping_getitem_eq key m :
  exists m',
    mapping_getitem key m = (Environ.dict_getitem (mapping_items m) key, m')
    /\ mapping_items m' = mapping_items m.
Proof. destruct m as [d|e]; simpl; eauto. Qed.

(** What [get] does, by the source of the value. *)
Lemma get_from_environ key cast default self value :
  mapping_items (environ self) !! (env_prefix self +:+ key) = Some value ->
  fst (get key cast default self)
  = _perform_cast (env_prefix self +:+ key) (VStr value) cast.
Proof.
  intros E. unfold get. set (ekey := env_prefix self +:+ key) in *.
  destruct (mapping_contains_eq ekey (environ self)) as (m & -> & Hm).
  rewrite bool_decide_eq_true_2 by eauto.
  destruct (mapping_getitem_eq ekey m) as (m' & -> & _).
  rewrite Hm. unfold Environ.dict_getitem. rewrite E. reflexivity.
Qed.

Lemma get_not_in_environ key cast default self :
  mapping_items (environ self) !! (env_prefix self +:+ key) = None ->
  fst (get key cast default self)
  = match file_values self !! (env_prefix self +:+ key) with
    | Some value => _perform_cast (env_prefix self +:+ key) (VStr value) cast
    | None =>
        match default with
        | Some value => _perform_cast (env_prefix self +:+ key) value cast
        | None =>
            Raise (KeyError
              ("Config '" +:+ (env_prefix self +:+ key)
               +:+ "' is missing, and has no default."))
        end
    end.
Proof.
  intros E. unfold get. set (ekey := env_prefix self +:+ key) in *.
  destruct (mapping_contains_eq ekey (environ self)) as (m & -> & Hm).
  rewrite bool_decide_eq_false_2 by (rewrite E; intros [? ?]; discriminate).
  simpl. destruct (file_values self !! ekey); [reflexivity|].
  destruct default; reflexivity.
Qed.

Lemma get_from_file key cast default self value :
  mapping_items (environ self) !! (env_prefix self +:+ key) = None ->
  file_values self !! (env_prefix self +:+ key) = Some value ->
  fst (get key cast default self)
  = _perform_cast (env_prefix self +:+ key) (VStr value) cast.
Proof. intros E F. rewrite get_not_in_environ, F by exact E. reflexivity. Qed.

Lemma get_from_default key cast self value :
  mapping_items (environ self) !! (env_prefix self +:+ key) = None ->
  file_values self !! (env_prefix self +:+ key) = None ->
  fst (get key cast (Some value) self)
  = _perform_cast (env_prefix self +:+ key) value cast.
Proof. intros E F. rewrite get_not_in_environ, F by exact E. reflexivity. Qed.

Lemma get_resolved key cast default self value :
  resolves self key default value ->
  fst (get key cast default self)
  = _perform_cast (env_prefix self +:+ key) value cast.
Proof.
  intros [s E|s E F|d E F ->].
  - apply get_from_environ, E.
  - apply get_from_file; assumption.
  - apply get_from_default; assumption.
Qed.

(** C1. [get] looks up [env_prefix + key], in the environment first, in
    the values of the file next, and takes the default last; what it
    returns or raises is what [_perform_cast] does with the value it
    found, and without a value it raises [KeyError]. *)
Theorem get_precedence key cast default self :
  let ekey := env_prefix self +:+ key in
  fst (get key cast default self)
  = match mapping_items (environ self) !! ekey with
    | Some value => _perform_cast ekey (VStr value) cast
    | None =>
        match file_values self !! ekey with
        | Some value => _perform_cast ekey (VStr value) cast
        | None =>
            match default with
            | Some value => _perform_cast ekey value cast
            | None =>
                Raise (KeyError
                  ("Config '" +:+ ekey +:+ "' is missing, and has no default."))
            end
        end
    end.
Proof.
  intros ekey. subst ekey.
  destruct (mapping_items (environ self) !! _) as [v|] eqn:E.
  - apply get_from_environ, E.
  - apply get_not_in_environ, E.
Qed.

(** [get] leaves the entries of the environment and the values of the
    file as they are. *)
Lemma get_frame key cast default self :
  let self' := snd (get key cast default self) in
  mapping_items (environ self') = mapping_items (environ self)
  /\ file_values self' = file_values self
  /\ env_prefix self' = env_prefix self.
Proof.
  simpl. unfold get. set (ekey := env_prefix self +:+ key).
  destruct (mapping_contains_eq ekey (environ self)) as (m & -> & Hm).
  destruct (bool_decide _).
  - destruct (mapping_getitem_eq ekey m) as (m' & -> & Hm').
    destruct (Environ.dict_getitem _ _); simpl; rewrite Hm', Hm; auto.
  - simpl. destruct (file_values self !! ekey); [simpl; auto|].
    destruct default; simpl; auto.
Qed.

(** *** The boolean cast *)

Lemma bool_mapping_lookup (l : string) :
  bool_mapping !! l
  = if decide (l = "true" \/ l = "1") then Some true
    else if decide (l = "false" \/ l = "0") then Some false
    else None.
Proof.
  unfold bool_mapping. rewrite !lookup_insert, lookup_empty.
  repeat case_decide; try reflexivity; subst;
    intuition (try discriminate; congruence).
Qed.

(** C2. The boolean cast of a string lowercases it, gives [True] for
    "true" and "1" and [False] for "false" and "0", and on any other
    string raises [ValueError] with a message that names the key and the
    string, in the lowercased form the cast compares. *)
Theorem perform_cast_bool key s :
  _perform_cast key (VStr s) (Some py_bool)
  = (if decide (lower s = "true" \/ lower s = "1") then Ret (VBool true)
     else if decide (lower s = "false" \/ lower s = "0") then Ret (VBool false)
     else Raise (ValueError
            ("Config '" +:+ key +:+ "' has value '" +:+ lower s
             +:+ "'. Not a valid bool.")))
  /\ _perform_cast key (VStr "TRUE") (Some py_bool) = Ret (VBool true)
  /\ _perform_cast key (VStr "True") (Some py_bool) = Ret (VBool true)
  /\ _perform_cast key (VStr "FALSE") (Some py_bool) = Ret (VBool false).
Proof.
  split; [|split; [|split]; reflexivity].
  unfold _perform_cast. rewrite bool_mapping_lookup.
  repeat case_decide; reflexivity.
Qed.

(** The example of a string that is no boolean: the message has it in
    lower case. *)
Example perform_cast_bool_yes :
  _perform_cast "DEBUG" (VStr "Yes") (Some py_bool)
  = Raise (ValueError "Config 'DEBUG' has value 'yes'. Not a valid bool.").
Proof. reflexivity. Qed.

(** *** Defaults, and keys that are missing *)

(** C6. For a key that neither the environment nor the file has: with
    [default=None], [get] returns [None] whatever the cast; with no
    default it raises [KeyError], and the message has the key with its
    prefix. *)
Theorem get_absent key cast self :
  let ekey := env_prefix self +:+ key in
  mapping_items (environ self) !! ekey = None ->
  file_values self !! ekey = None ->
  fst (get key cast (Some VNone) self) = Ret VNone
  /\ fst (get key cast None self)
     = Raise (KeyError
         ("Config '" +:+ ekey +:+ "' is missing, and has no default.")).
Proof.
  intros ekey E F. subst ekey. split.
  - rewrite get_from_default by assumption.
    destruct cast as [[|n g]|]; reflexivity.
  - rewrite get_not_in_environ, F by exact E. reflexivity.
Qed.

Lemma get_absent_witness :
  fst (get "HOST" (Some port) (Some VNone) sample_config) = Ret VNone
  /\ fst (get "HOST" (Some port) None sample_config)
     = Raise (KeyError "Config 'APP_HOST' is missing, and has no default.").
Proof. apply (get_absent "HOST" (Some port) sample_config); reflexivity. Defined.

(** *** Casts other than [bool] *)




(** An error of a subclass of [ValueError] is caught like a
    [ValueError]. *)
Example get_subclass_error :
  fst (get "PORT" (Some json_loads) None sample_config)
  = Raise (ValueError "Config 'APP_PORT' has value '80a'. Not a valid loads.").
Proof. reflexivity. Qed.

Example get_port_from_file :
  fst (get "WORKERS" (Some port) (Some (VInt 1)) sample_config) = Ret (VInt 4).
Proof. reflexivity. Qed.

Example get_port_default :
  fst (get "TIMEOUT" (Some port) (Some (VInt 30)) sample_config)
  = Raise (ValueError "Config 'APP_TIMEOUT' has value '30'. Not a valid port.").
Proof. reflexivity. Qed.

(** *** The file *)

(** A line without "=", and a line that starts with "#", change nothing. *)
Lemma read_line_skip fv line :
  contains "=" (strip line) = false \/ startswith "#" (strip line) = true ->
  read_line fv line = Ret fv.
Proof.
  unfold read_line. intros [H|H]; rewrite H; [reflexivity|].
  rewrite andb_false_r. reflexivity.
Qed.

(** Any other line is cut at its first "=", and assigns the text after
    it, stripped of white space and then of quotes, to the text before
    it, stripped of white space. *)
Lemma read_line_assign line :
  contains "=" (strip line) = true ->
  startswith "#" (strip line) = false ->
  exists k raw,
    strip line = k +:+ String "=" raw
    /\ contains "=" k = false
    /\ forall fv,
         read_line fv line
         = Ret (<[strip k := strip_chars quote_chars (strip raw)]> fv).
Proof.
  intros Hc Hs.
  destruct (PyStrFacts.split1_found "=" (strip line) Hc) as (k & raw & Hsp & Hl & Hk).
  exists k, raw. split; [exact Hl|]. split; [exact Hk|].
  intros fv. unfold read_line. rewrite Hc, Hs, Hsp. reflexivity.
Qed.

(** The loop never fails to unpack the two pieces of a line: the file is
    always parsed. *)
Lemma read_line_total fv line : exists fv', read_line fv line = Ret fv'.
Proof.
  destruct (contains "=" (strip line)) eqn:Hc.
  - destruct (startswith "#" (strip line)) eqn:Hs.
    + exists fv. apply read_line_skip. auto.
    + destruct (read_line_assign line Hc Hs) as (k & raw & _ & _ & H).
      eexists. apply H.
  - exists fv. apply read_line_skip. auto.
Qed.

Lemma read_lines_app l1 : forall fv l2,
  read_lines fv (l1 ++ l2)
  = (fv' <- read_lines fv l1 ;; read_lines fv' l2).
Proof.
  induction l1 as [|l l1 IH]; intros fv l2; simpl; [reflexivity|].
  destruct (read_line fv l) as [fv'|e]; simpl; [apply IH | reflexivity].
Qed.

Lemma read_lines_total lines : forall fv, exists fv', read_lines fv lines = Ret fv'.
Proof.
  induction lines as [|l lines IH]; intros fv; simpl; [eauto|].
  destruct (read_line_total fv l) as [fv' ->]. simpl. apply IH.
Qed.

Lemma parse_total text : exists fv, parse text = Ret fv.
Proof. apply read_lines_total. Qed.

(** Lines that leave a key alone, whatever the mapping so far, leave it
    alone together. *)
Lemma read_lines_keep (k : string) lines :
  (forall l, l ∈ lines ->
     forall fv, exists fv', read_line fv l = Ret fv' /\ fv' !! k = fv !! k) ->
  forall fv, exists fv', read_lines fv lines = Ret fv' /\ fv' !! k = fv !! k.
Proof.
  induction lines as [|l lines IH]; intros H fv; simpl; [eauto|].
  destruct (H l (list_elem_of_here _ _) fv) as (fv1 & -> & H1). simpl.
  destruct (IH (fun l' Hl' => H l' (list_elem_of_further _ _ _ Hl')) fv1)
    as (fv2 & -> & H2).
  exists fv2. split; [reflexivity | congruence].
Qed.

Lemma last_line_wins lines1 line lines2 (k v : string) fv :
  (forall fv', read_line fv' line = Ret (<[k:=v]> fv')) ->
  (forall l, l ∈ lines2 ->
     forall fv', exists fv'', read_line fv' l = Ret fv'' /\ fv'' !! k = fv' !! k) ->
  exists m, read_lines fv (lines1 ++ line :: lines2) = Ret m /\ m !! k = Some v.
Proof.
  intros Hline Hrest. rewrite read_lines_app.
  destruct (read_lines_total lines1 fv) as [fv1 ->]. simpl.
  rewrite Hline. simpl.
  destruct (read_lines_keep k lines2 Hrest (<[k:=v]> fv1)) as (m & -> & Hm).
  exists m. split; [reflexivity|]. rewrite Hm. apply lookup_insert_eq.
Qed.

(** C8. The file of the example parses to the three entries A, B and C.
    In general: a stripped line without "=" or starting with "#" is
    ignored; any other line is cut at its first "=" only, and assigns
    the value, stripped of white space and quotes, to the key, stripped
    of white space; and a key takes the value of the last line that
    assigns it. *)
Theorem read_file_rules :
  parse sample_file = Ret sample_values
  /\ (forall fv line,
        contains "=" (strip line) = false \/ startswith "#" (strip line) = true ->
        read_line fv line = Ret fv)
  /\ (forall line,
        contains "=" (strip line) = true ->
        startswith "#" (strip line) = false ->
        exists k raw,
          strip line = k +:+ String "=" raw
          /\ contains "=" k = false
          /\ forall fv,
               read_line fv line
               = Ret (<[strip k := strip_chars quote_chars (strip raw)]> fv))
  /\ (forall lines1 line lines2 (k v : string),
        (forall fv, read_line fv line = Ret (<[k:=v]> fv)) ->
        (forall l, l ∈ lines2 ->
           forall fv, exists fv', read_line fv l = Ret fv' /\ fv' !! k = fv !! k) ->
        exists m, read_lines ∅ (lines1 ++ line :: lines2) = Ret m
                  /\ m !! k = Some v).
Proof.
  split; [vm_compute; reflexivity|].
  split; [exact read_line_skip|].
  split; [exact read_line_assign|].
  intros. apply last_line_wins; assumption.
Qed.

Example parse_duplicate_key :
  parse ("A=1" +:+ nl +:+ "B=2" +:+ nl +:+ "A = 3")
  = Ret (<["B":="2"]> (<["A":="3"]> ∅)).
Proof. vm_compute. reflexivity. Qed.

Example parse_crlf :
  parse ("A=1" +:+ String CR nl +:+ " # B=2" +:+ String CR "C=")
  = Ret (<["C":=""]> (<["A":="1"]> ∅)).
Proof. vm_compute. reflexivity. Qed.

(** *** Quotes around a value *)

(** C9, as the claim states it, fails: a value in two layers of quotes
    loses both, not one, and a value between a double and a single quote
    loses both, though they do not match. *)
Lemma quotes_all_stripped_example :
  parse "K=''v''" = Ret (<["K":="v"]> ∅)
  /\ parse "K=''v''" <> Ret (<["K":="'v'"]> ∅)
  /\ parse ("K=" +:+ dq +:+ "v'") = Ret (<["K":="v"]> ∅).
Proof.
  split; [vm_compute; reflexivity|]. split; [|vm_compute; reflexivity].
  intros H. assert (parse "K=''v''" = Ret (<["K":="v"]> ∅)) as H'
    by (vm_compute; reflexivity).
  rewrite H' in H.
  apply (f_equal (fun r : result (gmap string string) =>
                    match r with Ret m => m !! "K" | Raise _ => None end)) in H.
  rewrite !lookup_insert_eq in H. discriminate.
Qed.

(** C9, amended. From the value of a parsed line, once stripped of white
    space, the quote characters at both ends are all stripped, of either
    kind, however many, matching or not: what is stored is the value less
    a run of quotes at each end, and has a quote at neither end. *)
Theorem value_quotes_stripped line :
  contains "=" (strip line) = true ->
  startswith "#" (strip line) = false ->
  exists k raw value,
    strip line = k +:+ String "=" raw
    /\ contains "=" k = false
    /\ (forall fv, read_line fv line = Ret (<[strip k := value]> fv))
    /\ (exists a b,
          strip raw = a +:+ value +:+ b
          /\ all_chars (fun c => char_in c quote_chars) a = true
          /\ all_chars (fun c => char_in c quote_chars) b = true)
    /\ (forall c, char_in c quote_chars = true ->
          startswith c value = false /\ endswith c value = false).
Proof.
  intros Hc Hs.
  destruct (read_line_assign line Hc Hs) as (k & raw & Hl & Hk & H).
  exists k, raw, (strip_chars quote_chars (strip raw)).
  split; [exact Hl|]. split; [exact Hk|]. split; [exact H|]. split.
  - apply PyStrFacts.strip_by_decomp.
  - intros c Hq.
    apply (PyStrFacts.strip_by_ends (fun c => char_in c quote_chars)), Hq.
Qed.

Lemma value_quotes_stripped_witness :
  exists k raw value,
    strip "K = ''v''" = k +:+ String "=" raw
    /\ contains "=" k = false
    /\ (forall fv, read_line fv "K = ''v''" = Ret (<[strip k := value]> fv))
    /\ (exists a b,
          strip raw = a +:+ value +:+ b
          /\ all_chars (fun c => char_in c quote_chars) a = true
          /\ all_chars (fun c => char_in c quote_chars) b = true)
    /\ (forall c, char_in c quote_chars = true ->
          startswith c value = false /\ endswith c value = false).
Proof. apply (value_quotes_stripped "K = ''v''"); reflexivity. Defined.

End ConfigFacts.

(** ** More on [Environ]: what a read fixes, and what writes do *)

Module EnvironMore.
Import Environ.

Lemma step_keeps_read_value key o self :
  key ∈ _has_been_read self ->
  _environ (step o self) !! key = _environ self !! key.
Proof.
  intros H. destruct o as [k|k v|k|k| |]; simpl; try reflexivity.
  - unfold __setitem__. destruct (decide (k ∈ _)) as [|Hk]; [reflexivity|].
    simpl. apply lookup_insert_ne. intros ->. contradiction.
  - unfold __delitem__. destruct (decide (k ∈ _)) as [|Hk]; [reflexivity|].
    unfold dict_delitem. destruct (_environ self !! k); [|reflexivity].
    simpl. apply lookup_delete_ne. intros ->. contradiction.
  - rewrite EnvironFacts.contains_eq. reflexivity.
Qed.

Lemma run_keeps_read_value key ops : forall self,
  key ∈ _has_been_read self ->
  _environ (run ops self) !! key = _environ self !! key.
Proof.
  induction ops as [|o ops IH]; intros self H; simpl; [reflexivity|].
  rewrite IH by (apply EnvironFacts.step_read, H).
  apply step_keeps_read_value, H.
Qed.

(** X1. What a key was read as stays: after [__getitem__] on a key, no
    program of operations changes the entry of that key (or brings one
    in, when there was none), and every later [__getitem__] on it
    returns, or raises, what the first did. *)
Theorem read_value_stays key ops self :
  let self' := run ops (snd (__getitem__ key self)) in
  _environ self' !! key = _environ self !! key
  /\ fst (__getitem__ key self') = fst (__getitem__ key self).
Proof.
  intros self'.
  assert (_environ self' !! key = _environ self !! key) as H.
  { unfold self'. rewrite run_keeps_read_value by apply EnvironFacts.getitem_marks.
    reflexivity. }
  split; [exact H|]. simpl. unfold dict_getitem. rewrite H. reflexivity.
Qed.

(** Equations between sets of keys, by their elements. *)
Ltac by_elements :=
  apply set_eq; intros ?;
  rewrite ?elem_of_union, ?elem_of_singleton, ?elem_of_empty; tauto.

Lemma step_reads o self :
  _has_been_read (step o self) = _has_been_read self ∪ op_reads o.
Proof.
  destruct o as [k|k v|k|k| |]; simpl.
  - by_elements.
  - unfold __setitem__. destruct (decide _); simpl; by_elements.
  - unfold __delitem__. destruct (decide _); simpl; [by_elements|].
    destruct (dict_delitem _ _); simpl; by_elements.
  - rewrite EnvironFacts.contains_eq. simpl. by_elements.
  - by_elements.
  - by_elements.
Qed.

(** X2. The keys marked as read after a program of operations are those
    marked before and those the program passed to [__getitem__] or to a
    membership test: no operation unmarks a key, and [__setitem__],
    [__delitem__], [__iter__] and [__len__] mark none. *)
Theorem read_set_after_run ops self :
  _has_been_read (run ops self) = _has_been_read self ∪ keys_read ops.
Proof.
  revert self. induction ops as [|o ops IH]; intros self; simpl.
  - by_elements.
  - rewrite IH, step_reads. by_elements.
Qed.

(** X3. On a key that was not read and that the mapping does not hold,
    [__setitem__] and then [__delitem__] both return and leave the
    [Environ] as it was. *)
Theorem set_then_delete key value self :
  key ∉ _has_been_read self ->
  _environ self !! key = None ->
  let '(r1, self1) := __setitem__ key value self in
  let '(r2, self2) := __delitem__ key self1 in
  r1 = Ret () /\ r2 = Ret () /\ self2 = self.
Proof.
  intros Hr Hn. unfold __setitem__. rewrite decide_False by done.
  unfold __delitem__. simpl. rewrite decide_False by done.
  unfold dict_delitem. rewrite lookup_insert_eq.
  split; [reflexivity|]. split; [reflexivity|].
  destruct self as [d r]. simpl in *. f_equal.
  rewrite delete_insert_eq. apply delete_id, Hn.
Qed.

Lemma set_then_delete_witness :
  let self := __init__ (<["HOME":="/root"]> ∅) in
  snd (__delitem__ "TMP" (snd (__setitem__ "TMP" "1" self))) = self.
Proof.
  intros self.
  generalize (set_then_delete "TMP" "1" self (not_elem_of_empty _) eq_refl).
  destruct (__setitem__ "TMP" "1" self) as [r1 self1]. simpl.
  destruct (__delitem__ "TMP" self1) as [r2 self2]. simpl.
  intros (_ & _ & H). exact H.
Defined.

(** X4. [__delitem__] on a key that was not read: when the mapping holds
    the key it returns, the key is gone (a [__getitem__] raises
    [KeyError]) and the other entries stay; when the mapping does not
    hold the key it raises [KeyError] and leaves the [Environ] as it was,
    the key not marked. *)
Theorem delete_unread key self :
  key ∉ _has_been_read self ->
  match _environ self !! key with
  | Some _ =>
      fst (__delitem__ key self) = Ret ()
      /\ fst (__getitem__ key (snd (__delitem__ key self))) = Raise (KeyError key)
      /\ (forall k, k <> key ->
            _environ (snd (__delitem__ key self)) !! k = _environ self !! k)
  | None => __delitem__ key self = (Raise (KeyError key), self)
  end.
Proof.
  intros Hr. unfold __delitem__. rewrite decide_False by done.
  unfold dict_delitem. destruct (_environ self !! key) eqn:E; [|reflexivity].
  simpl. split; [reflexivity|]. split.
  - unfold dict_getitem. rewrite lookup_delete_eq. reflexivity.
  - intros k Hk. apply lookup_delete_ne. congruence.
Qed.

Lemma delete_unread_witness :
  let self := __init__ (<["HOME":="/root"]> ∅) in
  fst (__getitem__ "HOME" (snd (__delitem__ "HOME" self))) = Raise (KeyError "HOME").
Proof.
  intros self.
  exact (proj1 (proj2 (delete_unread "HOME" self (not_elem_of_empty _)))).
Defined.

(** X5. [__iter__] yields every key of the mapping once and nothing
    else, [__len__] is the number of the keys it yields, and neither
    changes the [Environ] (no key is marked). *)
Theorem iter_len self :
  exists keys,
    __iter__ self = (Ret keys, self)
    /\ __len__ self = (Ret (length keys), self)
    /\ NoDup keys
    /\ (forall k, k ∈ keys <-> is_Some (_environ self !! k)).
Proof.
  exists (fst <$> map_to_list (_environ self)).
  split; [reflexivity|]. split.
  - unfold __len__. rewrite length_fmap, length_map_to_list. reflexivity.
  - split; [apply NoDup_fst_map_to_list|].
    intros k. rewrite list_elem_of_fmap. split.
    + intros ([k' v] & -> & H). apply elem_of_map_to_list in H. eauto.
    + intros [v H]. exists (k, v). split; [reflexivity|].
      apply elem_of_map_to_list, H.
Qed.

End EnvironMore.

(** ** The inherited methods, on the guard *)

Module MixinFacts.
Import Environ.

Lemma getitem_cases key self :
  __getitem__ key self
  = (match _environ self !! key with
     | Some v => Ret v
     | None => Raise (KeyError key)
     end,
     {| _environ := _environ self;
        _has_been_read := {[key]} ∪ _has_been_read self |}).
Proof. reflexivity. Qed.

Lemma marked key (s : gset string) : key ∈ {[key]} ∪ s.
Proof. apply elem_of_union_l, elem_of_singleton. reflexivity. Qed.

(** X6. [environ.get(key, default)] never raises: it returns the value of
    the key, or the default when there is none. Either way it marks the
    key as read, so that a [__setitem__] on the key raises afterwards. *)
Theorem get_marks key default value self :
  let self' := snd (Mixin.get key default self) in
  fst (Mixin.get key default self)
  = Ret (match _environ self !! key with
         | Some v => VStr v
         | None => default
         end)
  /\ _environ self' = _environ self
  /\ _has_been_read self' = {[key]} ∪ _has_been_read self
  /\ __setitem__ key value self'
     = (Raise (EnvironError
          ("Attempting to set environ['" +:+ key
           +:+ "'], but the value has already been read.")), self').
Proof.
  unfold Mixin.get. rewrite getitem_cases.
  destruct (_environ self !! key); simpl;
    (repeat split; [apply EnvironFacts.setitem_read, marked]).
Qed.

(** X7. [environ.pop] removes nothing. On a key the mapping holds, the
    read it starts with closes the key, and the delete that follows
    raises [EnvironError]; on a key the mapping does not hold it returns
    the default, or raises [KeyError] without one. The entries are those
    of before in every case, and the key is marked as read. *)
Theorem pop_removes_nothing key default self :
  let self' := snd (Mixin.pop key default self) in
  fst (Mixin.pop key default self)
  = match _environ self !! key with
    | Some _ =>
        Raise (EnvironError
          ("Attempting to delete environ['" +:+ key
           +:+ "'], but the value has already been read."))
    | None =>
        match default with
        | Some d => Ret d
        | None => Raise (KeyError key)
        end
    end
  /\ _environ self' = _environ self
  /\ _has_been_read self' = {[key]} ∪ _has_been_read self.
Proof.
  unfold Mixin.pop. rewrite getitem_cases.
  destruct (_environ self !! key).
  - rewrite EnvironFacts.delitem_read by apply marked. repeat split.
  - destruct default; repeat split.
Qed.

(** X8. [environ.setdefault] stores nothing. On a key the mapping holds
    it returns the value; on a key the mapping does not hold, the read it
    starts with closes the key, and the write that follows raises
    [EnvironError], the default not stored. *)
Theorem setdefault_stores_nothing key default self :
  let self' := snd (Mixin.setdefault key default self) in
  fst (Mixin.setdefault key default self)
  = match _environ self !! key with
    | Some v => Ret v
    | None =>
        Raise (EnvironError
          ("Attempting to set environ['" +:+ key
           +:+ "'], but the value has already been read."))
    end
  /\ _environ self' = _environ self
  /\ _has_been_read self' = {[key]} ∪ _has_been_read self.
Proof.
  unfold Mixin.setdefault. rewrite getitem_cases.
  destruct (_environ self !! key).
  - repeat split.
  - rewrite EnvironFacts.setitem_read by apply marked. repeat split.
Qed.

Lemma update_unread (other : list (string * string)) : forall self,
  (forall kv, kv ∈ other -> kv.1 ∉ _has_been_read self) ->
  Mixin.update other self
  = (Ret (),
     {| _environ := foldl (fun d kv => <[kv.1:=kv.2]> d) (_environ self) other;
        _has_been_read := _has_been_read self |}).
Proof.
  induction other as [|[k v] other IH]; intros self H; simpl.
  - destruct self; reflexivity.
  - unfold __setitem__.
    rewrite decide_False by (apply (H (k, v)), list_elem_of_here).
    rewrite IH; [reflexivity|].
    intros kv Hkv. apply H, list_elem_of_further, Hkv.
Qed.

Lemma update_app (l1 : list (string * string)) : forall l2 self,
  (forall kv, kv ∈ l1 -> kv.1 ∉ _has_been_read self) ->
  Mixin.update (l1 ++ l2) self
  = Mixin.update l2
      {| _environ := foldl (fun d kv => <[kv.1:=kv.2]> d) (_environ self) l1;
         _has_been_read := _has_been_read self |}.
Proof.
  induction l1 as [|[k v] l1 IH]; intros l2 self H; simpl.
  - destruct self; reflexivity.
  - unfold __setitem__.
    rewrite decide_False by (apply (H (k, v)), list_elem_of_here).
    rewrite IH; [reflexivity|].
    intros kv Hkv. apply H, list_elem_of_further, Hkv.
Qed.

(** X9. [environ.update] on pairs sets them in order, a later pair over
    an earlier one of the same key, as long as no key was read. At the
    first key that was read it raises [EnvironError], and the pairs
    before it stay set: there is no roll back. *)
Theorem update_stops_at_read (l1 : list (string * string)) self :
  (forall kv, kv ∈ l1 -> kv.1 ∉ _has_been_read self) ->
  let self1 :=
    {| _environ := foldl (fun d kv => <[kv.1:=kv.2]> d) (_environ self) l1;
       _has_been_read := _has_been_read self |} in
  Mixin.update l1 self = (Ret (), self1)
  /\ (forall key value l2,
        key ∈ _has_been_read self ->
        Mixin.update (l1 ++ (key, value) :: l2) self
        = (Raise (EnvironError
             ("Attempting to set environ['" +:+ key
              +:+ "'], but the value has already been read.")), self1)).
Proof.
  intros H self1. split; [apply update_unread, H|].
  intros key value l2 Hk. rewrite update_app by exact H.
  fold self1. simpl. rewrite EnvironFacts.setitem_read by exact Hk.
  reflexivity.
Qed.

Lemma update_stops_at_read_witness :
  let self := snd (__getitem__ "B" (__init__ ∅)) in
  Mixin.update [("A", "1"); ("B", "2"); ("C", "3")] self
  = (Raise (EnvironError
       "Attempting to set environ['B'], but the value has already been read."),
     {| _environ := <["A":="1"]> ∅; _has_been_read := {["B"]} ∪ ∅ |}).
Proof.
  intros self.
  refine (proj2 (update_stops_at_read [("A", "1")] self _) "B" "2" [("C", "3")] _).
  - intros kv Hkv. apply list_elem_of_singleton in Hkv. subst kv. simpl.
    intros H. apply elem_of_union in H as [H|H].
    + apply elem_of_singleton in H. discriminate.
    + revert H. apply not_elem_of_empty.
  - apply marked.
Defined.

End MixinFacts.

(** ** More on [Config]: lookups *)

Module ConfigMore.
Import PyStr Config.

(** X10. [get] changes no entry: the environment has the entries it had,
    and the values of the file and the prefix are those of before. With
    a plain [dict] as the environment the [Config] is the same
    altogether. *)
Theorem get_changes_no_entry key cast default self :
  let self' := snd (get key cast default self) in
  mapping_items (environ self') = mapping_items (environ self)
  /\ file_values self' = file_values self
  /\ env_prefix self' = env_prefix self
  /\ (forall d, environ self = Dict d -> self' = self).
Proof.
  intros self'.
  destruct (ConfigFacts.get_frame key cast default self) as (H1 & H2 & H3).
  split; [exact H1|]. split; [exact H2|]. split; [exact H3|].
  intros d Hd. unfold self', get. rewrite Hd. simpl.
  assert (with_environ self (Dict d) = self) as ->
    by (destruct self; simpl in *; subst; reflexivity).
  destruct (bool_decide _); simpl.
  - destruct (Environ.dict_getitem d _); reflexivity.
  - destruct (file_values self !! _); [reflexivity|].
    destruct default; reflexivity.
Qed.

(** X11. With an [Environ] as the environment, [get] marks the key, with
    its prefix, as read, whether the environment holds it or the value
    comes from the file or the default, or there is none: a write of
    that key to the [Environ] raises [EnvironError] afterwards. No other
    key is marked. *)
Theorem get_closes_key key cast default self e value :
  environ self = Guarded e ->
  let ekey := env_prefix self +:+ key in
  exists e',
    environ (snd (get key cast default self)) = Guarded e'
    /\ Environ._environ e' = Environ._environ e
    /\ (forall k, k ∈ Environ._has_been_read e'
                  <-> k = ekey \/ k ∈ Environ._has_been_read e)
    /\ Environ.__setitem__ ekey value e'
       = (Raise (EnvironError
            ("Attempting to set environ['" +:+ ekey
             +:+ "'], but the value has already been read.")), e').
Proof.
  intros He ekey. unfold get. fold ekey. rewrite He. simpl.
  rewrite EnvironFacts.contains_eq. simpl.
  assert (forall A (r : result A) s,
            ekey ∈ s ->
            (forall k, k ∈ s <-> k = ekey \/ k ∈ Environ._has_been_read e) ->
            exists e',
              environ (snd (r, with_environ self (Guarded
                {| Environ._environ := Environ._environ e;
                   Environ._has_been_read := s |})))
              = Guarded e'
              /\ Environ._environ e' = Environ._environ e
              /\ (forall k, k ∈ Environ._has_been_read e'
                            <-> k = ekey \/ k ∈ Environ._has_been_read e)
              /\ Environ.__setitem__ ekey value e'
                 = (Raise (EnvironError
                      ("Attempting to set environ['" +:+ ekey
                       +:+ "'], but the value has already been read.")), e'))
    as H.
  { intros A r s Hin Hs. eexists. split; [reflexivity|].
    split; [reflexivity|]. split; [exact Hs|].
    apply EnvironFacts.setitem_read. exact Hin. }
  assert (forall k, k ∈ ({[ekey]} ∪ Environ._has_been_read e : gset string)
                    <-> k = ekey \/ k ∈ Environ._has_been_read e) as H1
    by (intros k; rewrite elem_of_union, elem_of_singleton; tauto).
  assert (forall k, k ∈ ({[ekey]} ∪ ({[ekey]} ∪ Environ._has_been_read e)
                          : gset string)
                    <-> k = ekey \/ k ∈ Environ._has_been_read e) as H2
    by (intros k; rewrite !elem_of_union, elem_of_singleton; tauto).
  destruct (bool_decide _); simpl.
  - destruct (Environ.dict_getitem _ _); apply H;
      solve [apply MixinFacts.marked | exact H2].
  - destruct (file_values self !! ekey);
      [|destruct default]; apply H;
      solve [apply MixinFacts.marked | exact H1].
Qed.

Lemma get_closes_key_witness :
  exists e',
    environ (snd (get "HOST" None (Some (VStr "localhost")) sample_config))
    = Guarded e'
    /\ fst (Environ.__setitem__ "APP_HOST" "example.org" e')
       = Raise (EnvironError
           "Attempting to set environ['APP_HOST'], but the value has already been read.").
Proof.
  destruct (get_closes_key "HOST" None (Some (VStr "localhost")) sample_config
              (Environ.__init__ sample_environ) "example.org" eq_refl)
    as (e' & H1 & _ & _ & H2).
  exists e'. split; [exact H1|].
  change "APP_HOST" with (env_prefix sample_config +:+ "HOST").
  rewrite H2. reflexivity.
Defined.

(** X12. What a [get] returns or raises does not depend on the lookups
    made before: after any [get], a [get] gives what it would have given
    before it. *)
Theorem get_repeatable key cast default key' cast' default' self :
  fst (get key cast default (snd (get key' cast' default' self)))
  = fst (get key cast default self).
Proof.
  destruct (ConfigFacts.get_frame key' cast' default' self) as (H1 & H2 & H3).
  set (self' := snd (get key' cast' default' self)) in *.
  destruct (mapping_items (environ self) !! (env_prefix self +:+ key))
    as [v|] eqn:E.
  - rewrite (ConfigFacts.get_from_environ key cast default self v E).
    rewrite (ConfigFacts.get_from_environ key cast default self' v)
      by (rewrite H1, H3; exact E).
    rewrite H3. reflexivity.
  - rewrite (ConfigFacts.get_not_in_environ key cast default self E).
    rewrite (ConfigFacts.get_not_in_environ key cast default self')
      by (rewrite H1, H3; exact E).
    rewrite H2, H3. reflexivity.
Qed.

(** X13. With a default and no cast, [get] never raises: it returns the
    string of the environment or of the file as it is, or the default as
    it is. *)
Theorem get_uncast key default self :
  exists value,
    fst (get key None (Some default) self) = Ret value
    /\ resolves self key (Some default) value.
Proof.
  destruct (mapping_items (environ self) !! (env_prefix self +:+ key))
    as [v|] eqn:E.
  - exists (VStr v). split; [|apply from_environ, E].
    rewrite (ConfigFacts.get_from_environ _ _ _ _ v E). reflexivity.
  - rewrite (ConfigFacts.get_not_in_environ _ _ _ _ E).
    destruct (file_values self !! _) as [v|] eqn:F.
    + exists (VStr v). split; [reflexivity | apply from_file; assumption].
    + exists default. split; [reflexivity | apply from_default; auto].
Qed.

End ConfigMore.

(** ** More on [Config]: casts and construction *)

Module CastMore.
Import PyStr Config.

Lemma lower_char_idem c : lower_char (lower_char c) = lower_char c.
Proof. destruct c as [[] [] [] [] [] [] [] []]; reflexivity. Qed.

Lemma lower_idem s : lower (lower s) = lower s.
Proof.
  induction s as [|c r IH]; simpl; [reflexivity|].
  rewrite lower_char_idem, IH. reflexivity.
Qed.

(** X14. The boolean cast does not tell the case of letters: a string
    and its lowercased form are cast to the same value, or fail with the
    same error. *)
Theorem bool_cast_ignores_case key s :
  _perform_cast key (VStr (lower s)) (Some py_bool)
  = _perform_cast key (VStr s) (Some py_bool).
Proof. unfold _perform_cast. rewrite lower_idem. reflexivity. Qed.

(** X15. A default is cast like any value. For a key that neither the
    environment nor the file has, and the cast [bool]: a default that is
    no string is not looked up in the table of the four strings, it
    gives its truth value ([False] gives [False], [0] gives [False], [1]
    gives [True]), but for [None], which is returned as it is. *)
Theorem bool_cast_of_default key default self :
  mapping_items (environ self) !! (env_prefix self +:+ key) = None ->
  file_values self !! (env_prefix self +:+ key) = None ->
  (forall s, default <> VStr s) ->
  fst (get key (Some py_bool) (Some default) self)
  = Ret (match default with
         | VNone => VNone
         | _ => VBool (truthy default)
         end).
Proof.
  intros E F Hs. rewrite ConfigFacts.get_from_default by assumption.
  destruct default as [|b|z|s]; try reflexivity.
  exfalso. apply (Hs s). reflexivity.
Qed.

Lemma bool_cast_of_default_witness :
  fst (get "TESTING" (Some py_bool) (Some (VBool false)) sample_config)
  = Ret (VBool false).
Proof.
  apply (bool_cast_of_default "TESTING" (VBool false) sample_config);
    [reflexivity | reflexivity | discriminate].
Defined.

(** X16. [_perform_cast] catches [TypeError] and [ValueError], errors
    of their subclasses included, and nothing else: any error the cast
    raises on the value that is an instance of neither comes out of
    [get] as it is. *)
Theorem cast_error_passes key default self value name g e :
  resolves self key default value ->
  value <> VNone ->
  g value = Raise e ->
  is_type_or_value_error e = false ->
  fst (get key (Some (py_callable name g)) default self) = Raise e.
Proof.
  intros Hres Hne Hg He.
  rewrite (ConfigFacts.get_resolved _ _ _ _ _ Hres).
  unfold _perform_cast. simpl.
  destruct value; try congruence; rewrite Hg, He; reflexivity.
Qed.

Lemma cast_error_passes_witness :
  fst (get "DEBUG" (Some level) None sample_config) = Raise (KeyError "Yes").
Proof.
  refine (cast_error_passes "DEBUG" None sample_config (VStr "Yes") _ _
            (KeyError "Yes") _ _ _ _).
  - apply from_environ. reflexivity.
  - discriminate.
  - reflexivity.
  - reflexivity.
Defined.

(** X17. The message of a failed cast is made with the [__name__] of the
    cast: when a callable without one raises [TypeError] or [ValueError],
    [get] raises [AttributeError], and not the [ValueError] that names
    the key and the value. *)
Theorem nameless_cast_fails key default self value g :
  resolves self key default value ->
  value <> VNone ->
  (exists m, g value = Raise (TypeError m) \/ g value = Raise (ValueError m)) ->
  exists m',
    fst (get key (Some (py_callable None g)) default self)
    = Raise (AttributeError m').
Proof.
  intros Hres Hne [m Hg].
  rewrite (ConfigFacts.get_resolved _ _ _ _ _ Hres).
  unfold _perform_cast. simpl. eexists.
  destruct Hg as [Hg|Hg]; destruct value; try congruence; rewrite Hg;
    reflexivity.
Qed.

Lemma nameless_cast_fails_witness :
  exists m',
    fst (get "PORT" (Some nameless) None sample_config)
    = Raise (AttributeError m').
Proof.
  refine (nameless_cast_fails "PORT" None sample_config (VStr "80a") _ _ _ _).
  - apply from_environ. reflexivity.
  - discriminate.
  - exists "no". right. reflexivity.
Defined.

Lemma read_file_total_aux fs file_name text :
  fs !! file_name = Some (Text text) ->
  exists values, _read_file fs file_name = Ret values /\ parse text = Ret values.
Proof.
  intros H. unfold _read_file. rewrite H.
  destruct (ConfigFacts.read_lines_total (readlines text) ∅) as [values Hv].
  exists values. split; exact Hv.
Qed.

(** X18. Once the file is opened and its text decoded, [_read_file] does
    not raise, whatever the text: every line that has a "=" unpacks in
    its two pieces. What it can raise is what [open] and the decoding
    raise. *)
Theorem read_file_returns fs file_name :
  match fs !! file_name with
  | Some (Text text) =>
      exists values, _read_file fs file_name = Ret values
                     /\ parse text = Ret values
  | Some (Unreadable e) => _read_file fs file_name = Raise e
  | None => exists e, _read_file fs file_name = Raise e
  end.
Proof.
  destruct (fs !! file_name) as [[text|e]|] eqn:E.
  - apply read_file_total_aux, E.
  - unfold _read_file. rewrite E. reflexivity.
  - unfold _read_file. rewrite E. eauto.
Qed.

(** X19. [Config.__init__] raises in two cases only: the file is there
    and [open] or the decoding of its text raises, and that error comes
    out; or the file is not there, [warn_missing] is set, and the
    filters turn the warning into an error. In every other case it
    returns, with the environment and the prefix it was given: without
    a file name, or with the name of a file that is not there, the
    values of the file are empty, and the file that is not there is
    reported by one warning when [warn_missing] is set and by nothing
    otherwise; with a file whose text is read, the values are those
    parsed from the text, and nothing is reported. *)
Theorem init_outcome fs warn env_file environ env_prefix warn_missing :
  let made values :=
    {| Config.environ := environ; Config.env_prefix := env_prefix;
       file_values := values |} in
  match env_file with
  | None =>
      __init__ fs warn env_file environ env_prefix warn_missing
      = Ret (made ∅, [])
  | Some name =>
      match fs !! name with
      | None =>
          if warn_missing then
            match warn (name +:+ " not found") with
            | Ret _ =>
                __init__ fs warn env_file environ env_prefix warn_missing
                = Ret (made ∅, [name +:+ " not found"])
            | Raise e =>
                __init__ fs warn env_file environ env_prefix warn_missing
                = Raise e
            end
          else
            __init__ fs warn env_file environ env_prefix warn_missing
            = Ret (made ∅, [])
      | Some (Text text) =>
          exists values,
            parse text = Ret values
            /\ __init__ fs warn env_file environ env_prefix warn_missing
               = Ret (made values, [])
      | Some (Unreadable e) =>
          __init__ fs warn env_file environ env_prefix warn_missing = Raise e
      end
  end.
Proof.
  intros made. unfold __init__. destruct env_file as [name|]; [|reflexivity].
  destruct (fs !! name) as [[text|e]|] eqn:E.
  - rewrite bool_decide_eq_true_2 by eauto. simpl.
    destruct (read_file_total_aux fs name text E) as (values & Hv & Hp).
    exists values. split; [exact Hp|]. rewrite Hv. reflexivity.
  - rewrite bool_decide_eq_true_2 by eauto. simpl.
    unfold _read_file. rewrite E. reflexivity.
  - rewrite bool_decide_eq_false_2 by (intros [? ?]; discriminate). simpl.
    destruct warn_missing; [|reflexivity].
    destruct (warn (name +:+ " not found")); reflexivity.
Qed.

Example init_unreadable_file :
  Config.__init__ sample_fs warn_shown (Some "bad.env") (Dict ∅) "" false
  = Raise (OtherError DerivesValueError "UnicodeDecodeError" "invalid start byte").
Proof. reflexivity. Qed.

Example init_warning_raised :
  Config.__init__ sample_fs warn_raised (Some "prod.env") (Dict ∅) "" true
  = Raise (OtherError DerivesNeither "UserWarning" "prod.env not found").
Proof. reflexivity. Qed.

End CastMore.

(** ** More on the [str] methods *)

Module PyStrMore.
Import PyStr.

Lemma append_cons c r b : String c r +:+ b = String c (r +:+ b).
Proof. reflexivity. Qed.

Lemma append_empty_r s : s +:+ "" = s.
Proof.
  induction s as [|c r IH]; [reflexivity|]. rewrite append_cons, IH. reflexivity.
Qed.

Lemma append_assoc a b c : (a +:+ b) +:+ c = a +:+ (b +:+ c).
Proof.
  induction a as [|d r IH]; [reflexivity|].
  rewrite !append_cons, IH. reflexivity.
Qed.

Lemma char_in_app c a b : char_in c (a +:+ b) = char_in c a || char_in c b.
Proof.
  induction a as [|d r IH]; [reflexivity|]. rewrite append_cons. simpl.
  destruct (Ascii.eqb c d); [reflexivity | exact IH].
Qed.

Lemma startswith_self c r : startswith c (String c r) = true.
Proof. simpl. apply Ascii.eqb_refl. Qed.

Lemma endswith_app c a d b :
  endswith c (a +:+ String d b) = endswith c (String d b).
Proof.
  induction a as [|e r IH]; [reflexivity|].
  rewrite append_cons. rewrite <- IH.
  destruct r as [|f r']; reflexivity.
Qed.

Lemma split1_app sep k v :
  contains sep k = false -> split1 sep (k +:+ String sep v) = [k; v].
Proof.
  unfold contains. induction k as [|c r IH].
  - intros _. change (split1 sep (String sep v) = [""; v]). simpl.
    rewrite Ascii.eqb_refl. reflexivity.
  - rewrite append_cons. simpl. rewrite (Ascii.eqb_sym sep c).
    destruct (Ascii.eqb c sep); [discriminate|].
    intros H. rewrite (IH H). reflexivity.
Qed.

Section Strip.

Variable p : ascii -> bool.

Lemma lstrip_by_id s :
  (forall c, p c = true -> startswith c s = false) -> lstrip_by p s = s.
Proof.
  destruct s as [|d r]; simpl; [reflexivity|]. intros H.
  destruct (p d) eqn:E; [|reflexivity].
  specialize (H d E). rewrite Ascii.eqb_refl in H. discriminate.
Qed.

Lemma rstrip_by_id s :
  (forall c, p c = true -> endswith c s = false) -> rstrip_by p s = s.
Proof.
  induction s as [|d r IH]; simpl; [reflexivity|]. intros H.
  destruct r as [|e r'].
  - simpl. destruct (p d) eqn:E; [|reflexivity].
    specialize (H d E). rewrite Ascii.eqb_refl in H. discriminate.
  - rewrite IH by exact H. reflexivity.
Qed.

Lemma strip_by_id s :
  (forall c, p c = true -> startswith c s = false /\ endswith c s = false) ->
  strip_by p s = s.
Proof.
  intros H. unfold strip_by.
  rewrite lstrip_by_id by (intros c Hc; apply H, Hc).
  apply rstrip_by_id. intros c Hc. apply H, Hc.
Qed.

Lemma lstrip_by_all a s :
  all_chars p a = true -> lstrip_by p (a +:+ s) = lstrip_by p s.
Proof.
  induction a as [|c r IH]; [reflexivity|]. rewrite append_cons. simpl.
  destruct (p c); [exact IH | discriminate].
Qed.

Lemma rstrip_by_all_empty b : all_chars p b = true -> rstrip_by p b = "".
Proof.
  induction b as [|c r IH]; simpl; [reflexivity|].
  destruct (p c); [|discriminate]. intros H. rewrite (IH H). reflexivity.
Qed.

Lemma rstrip_by_all s b :
  all_chars p b = true -> rstrip_by p (s +:+ b) = rstrip_by p s.
Proof.
  intros Hb. induction s as [|c r IH].
  - apply rstrip_by_all_empty, Hb.
  - rewrite append_cons. simpl. rewrite IH. reflexivity.
Qed.

Lemma lstrip_by_all_empty a : all_chars p a = true -> lstrip_by p a = "".
Proof.
  induction a as [|c r IH]; simpl; [reflexivity|].
  destruct (p c); [exact IH | discriminate].
Qed.

Lemma lstrip_by_app s b :
  all_chars p b = true ->
  rstrip_by p (lstrip_by p (s +:+ b)) = rstrip_by p (lstrip_by p s).
Proof.
  intros Hb. induction s as [|c r IH].
  - change ("" +:+ b) with b. rewrite lstrip_by_all_empty by exact Hb.
    reflexivity.
  - rewrite append_cons.
    change (lstrip_by p (String c (r +:+ b)))
      with (if p c then lstrip_by p (r +:+ b) else String c (r +:+ b)).
    change (lstrip_by p (String c r))
      with (if p c then lstrip_by p r else String c r).
    destruct (p c); [exact IH|].
    rewrite <- append_cons. apply rstrip_by_all, Hb.
Qed.

(** Characters of the set around a text do not change what [strip]
    leaves of it. *)
Lemma strip_by_pad a s b :
  all_chars p a = true -> all_chars p b = true ->
  strip_by p (a +:+ s +:+ b) = strip_by p s.
Proof.
  intros Ha Hb. unfold strip_by.
  rewrite lstrip_by_all by exact Ha. apply lstrip_by_app, Hb.
Qed.

Lemma strip_by_sub c s : char_in c (strip_by p s) = true -> char_in c s = true.
Proof.
  intros H. destruct (PyStrFacts.strip_by_decomp p s) as (a & b & Hs & _ & _).
  rewrite Hs, !char_in_app, H. destruct (char_in c a); reflexivity.
Qed.

End Strip.

End PyStrMore.

(** ** More on [_read_file]: what a file can say *)

Module ParseMore.
Import PyStr Config.

Lemma not_space_eq c : isspace c = true -> Ascii.eqb "=" c = false.
Proof.
  intros H. destruct (Ascii.eqb "=" c) eqn:E; [|reflexivity].
  apply Ascii.eqb_eq in E. subst c. discriminate.
Qed.

Lemma not_space_dquote c : isspace c = true -> Ascii.eqb DQUOTE c = false.
Proof.
  intros H. destruct (Ascii.eqb DQUOTE c) eqn:E; [|reflexivity].
  apply Ascii.eqb_eq in E. subst c. discriminate.
Qed.

Lemma strip_clean_key line k raw :
  startswith "#" (strip line) = false ->
  strip line = k +:+ String "=" raw ->
  contains "=" k = false ->
  clean_key (strip k).
Proof.
  intros Hs Hl Hk. split; [|split].
  - unfold contains in *. destruct (char_in "=" (strip k)) eqn:E; [|reflexivity].
    apply PyStrMore.strip_by_sub in E. congruence.
  - destruct k as [|d r]; [reflexivity|].
    rewrite PyStrMore.append_cons in Hl.
    assert (isspace d = false) as Hd.
    { destruct (isspace d) eqn:E; [|reflexivity].
      destruct (PyStrFacts.strip_by_ends isspace line d E) as [H _].
      unfold strip in Hl. rewrite Hl, PyStrMore.startswith_self in H.
      discriminate. }
    unfold strip, strip_by. simpl. rewrite Hd.
    apply PyStrFacts.rstrip_by_start.
    rewrite Hl in Hs. exact Hs.
  - intros c Hc. apply PyStrFacts.strip_by_ends, Hc.
Qed.

(** What a line that is not ignored assigns. *)
Lemma read_line_assigns_clean line :
  contains "=" (strip line) = true ->
  startswith "#" (strip line) = false ->
  exists key value,
    (forall fv, read_line fv line = Ret (<[key:=value]> fv))
    /\ clean_key key /\ bare is_quote value.
Proof.
  intros Hc Hs.
  destruct (ConfigFacts.read_line_assign line Hc Hs) as (k & raw & Hl & Hk & H).
  exists (strip k), (strip_chars quote_chars (strip raw)).
  split; [exact H|]. split.
  - exact (strip_clean_key line k raw Hs Hl Hk).
  - intros c Hq. apply (PyStrFacts.strip_by_ends is_quote), Hq.
Qed.

Lemma read_line_clean fv line fv' :
  (forall k v, fv !! k = Some v -> clean_key k /\ bare is_quote v) ->
  read_line fv line = Ret fv' ->
  forall k v, fv' !! k = Some v -> clean_key k /\ bare is_quote v.
Proof.
  intros Hfv Hr.
  destruct (contains "=" (strip line)) eqn:Hc;
    [destruct (startswith "#" (strip line)) eqn:Hs|].
  - rewrite ConfigFacts.read_line_skip in Hr by auto.
    injection Hr as <-. exact Hfv.
  - destruct (read_line_assigns_clean line Hc Hs) as (key & value & H & Hk & Hv).
    rewrite H in Hr. injection Hr as <-.
    intros k v. rewrite lookup_insert. case_decide.
    + intros [= <-]. subst k. auto.
    + apply Hfv.
  - rewrite ConfigFacts.read_line_skip in Hr by auto.
    injection Hr as <-. exact Hfv.
Qed.

Lemma parsed_clean_aux lines : forall fv fv',
  (forall k v, fv !! k = Some v -> clean_key k /\ bare is_quote v) ->
  read_lines fv lines = Ret fv' ->
  forall k v, fv' !! k = Some v -> clean_key k /\ bare is_quote v.
Proof.
  induction lines as [|line lines IH]; intros fv fv' Hfv Hr; simpl in Hr.
  - injection Hr as <-. exact Hfv.
  - destruct (read_line fv line) as [fv1|e] eqn:E; [|discriminate].
    simpl in Hr. apply (IH fv1 fv'); [|exact Hr].
    apply (read_line_clean fv line fv1); assumption.
Qed.

Lemma parsed_clean text values key value :
  parse text = Ret values ->
  values !! key = Some value ->
  clean_key key /\ bare is_quote value.
Proof.
  intros Hp. apply (parsed_clean_aux (readlines text) ∅ values); [|exact Hp].
  intros k v H. rewrite lookup_empty in H. discriminate.
Qed.

(** [bare] on a text that is given, by the cases of the character. *)
Ltac bare_by_cases :=
  let c := fresh "c" in
  let Hc := fresh "Hc" in
  intros c Hc; destruct c as [[] [] [] [] [] [] [] []];
  try (vm_compute in Hc; discriminate Hc); split; reflexivity.

(** X20. Every entry of the mapping [_read_file] builds has a key
    without "=", that does not start with "#" and has no white space at
    either end, and a value with no quote at either end. *)
Theorem parsed_entries_clean text values key value :
  parse text = Ret values ->
  values !! key = Some value ->
  clean_key key /\ bare is_quote value.
Proof. apply parsed_clean. Qed.

Lemma parsed_entries_clean_witness :
  clean_key "B" /\ bare is_quote "hello world".
Proof.
  apply (parsed_entries_clean sample_file sample_values "B" "hello world");
    [vm_compute; reflexivity | reflexivity].
Defined.

Lemma line_stripped key raw :
  bare isspace key ->
  (forall c, isspace c = true -> endswith c (String "=" raw) = false) ->
  strip (key +:+ String "=" raw) = key +:+ String "=" raw.
Proof.
  intros Hk Hr. apply PyStrMore.strip_by_id. intros c Hc. split.
  - destruct key as [|d r].
    + apply not_space_eq, Hc.
    + rewrite PyStrMore.append_cons. exact (proj1 (Hk c Hc)).
  - rewrite PyStrMore.endswith_app. apply Hr, Hc.
Qed.

Lemma read_written key raw fv :
  clean_key key ->
  (forall c, isspace c = true -> endswith c (String "=" raw) = false) ->
  read_line fv (key +:+ String "=" raw)
  = Ret (<[key := strip_chars quote_chars (strip raw)]> fv).
Proof.
  intros (Hk1 & Hk2 & Hk3) Hr. unfold read_line.
  rewrite (line_stripped key raw Hk3 Hr).
  assert (contains "=" (key +:+ String "=" raw) = true) as ->.
  { unfold contains. rewrite PyStrMore.char_in_app. simpl.
    apply orb_true_r. }
  assert (startswith "#" (key +:+ String "=" raw) = false) as ->.
  { destruct key as [|d r]; [reflexivity|].
    rewrite PyStrMore.append_cons. exact Hk2. }
  simpl. rewrite (PyStrMore.split1_app "=" key raw Hk1).
  unfold strip at 1. rewrite (PyStrMore.strip_by_id isspace key Hk3).
  reflexivity.
Qed.

Lemma quoted_ends value c :
  isspace c = true ->
  startswith c (String DQUOTE (value +:+ dq)) = false
  /\ endswith c (String DQUOTE (value +:+ dq)) = false.
Proof.
  intros Hc. split.
  - apply not_space_dquote, Hc.
  - change (String DQUOTE (value +:+ dq))
      with (String DQUOTE value +:+ String DQUOTE "").
    rewrite PyStrMore.endswith_app. apply not_space_dquote, Hc.
Qed.

Lemma read_quoted key value fv :
  clean_key key -> bare is_quote value ->
  read_line fv (key +:+ "=" +:+ dq +:+ value +:+ dq) = Ret (<[key:=value]> fv).
Proof.
  intros Hk Hq.
  change (key +:+ "=" +:+ dq +:+ value +:+ dq)
    with (key +:+ String "=" (String DQUOTE (value +:+ dq))).
  rewrite read_written; [|exact Hk|].
  - unfold strip.
    rewrite (PyStrMore.strip_by_id isspace _ (quoted_ends value)).
    unfold strip_chars, strip_by. fold is_quote.
    change (lstrip_by is_quote (String DQUOTE (value +:+ dq)))
      with (lstrip_by is_quote (value +:+ dq)).
    rewrite (PyStrMore.lstrip_by_app is_quote value dq eq_refl).
    fold (strip_by is_quote value).
    rewrite (PyStrMore.strip_by_id is_quote value Hq). reflexivity.
  - intros c Hc.
    change (endswith c (String DQUOTE (value +:+ dq)) = false).
    apply quoted_ends, Hc.
Qed.

(** X21. An entry written as key=value is read as it was written, when
    the key has no "=", does not start with "#" and has no white space at
    either end, and the value has neither white space nor a quote at
    either end; the value may hold "=" and "#". *)
Theorem write_then_read key value fv :
  clean_key key -> bare isspace value -> bare is_quote value ->
  read_line fv (key +:+ "=" +:+ value) = Ret (<[key:=value]> fv).
Proof.
  intros Hk Hs Hq. change (key +:+ "=" +:+ value) with (key +:+ String "=" value).
  rewrite read_written; [|exact Hk|].
  - unfold strip. rewrite (PyStrMore.strip_by_id isspace value Hs).
    unfold strip_chars. fold is_quote.
    rewrite (PyStrMore.strip_by_id is_quote value Hq). reflexivity.
  - intros c Hc. destruct value as [|e r].
    + apply not_space_eq, Hc.
    + exact (proj2 (Hs c Hc)).
Qed.

Lemma write_then_read_witness :
  read_line ∅ "URL=http://h/?a=1#top" = Ret (<["URL":="http://h/?a=1#top"]> ∅).
Proof.
  apply (write_then_read "URL" "http://h/?a=1#top" ∅).
  - split; [reflexivity|]. split; [reflexivity|]. bare_by_cases.
  - bare_by_cases.
  - bare_by_cases.
Defined.

(** X22. Double quotes keep the white space of a value: an entry written
    as key="value" is read with the value as it was written, white space
    at its ends included, when the value has no quote at either end (and
    the key is as in X21). *)
Theorem write_quoted_then_read key value fv :
  clean_key key -> bare is_quote value ->
  read_line fv (key +:+ "=" +:+ dq +:+ value +:+ dq) = Ret (<[key:=value]> fv).
Proof. apply read_quoted. Qed.

Lemma write_quoted_then_read_witness :
  read_line ∅ ("SEP=" +:+ dq +:+ " , " +:+ dq) = Ret (<["SEP":=" , "]> ∅).
Proof.
  apply (write_quoted_then_read "SEP" " , " ∅).
  - split; [reflexivity|]. split; [reflexivity|]. bare_by_cases.
  - bare_by_cases.
Defined.

(** X23. What was read can be written back: for every entry of the
    mapping [_read_file] builds from a text, the line key="value" is
    read as that entry. *)
Theorem parsed_entry_reads_back text values key value fv :
  parse text = Ret values ->
  values !! key = Some value ->
  read_line fv (key +:+ "=" +:+ dq +:+ value +:+ dq) = Ret (<[key:=value]> fv).
Proof.
  intros Hp Hv. destruct (parsed_clean text values key value Hp Hv) as [Hk Hq].
  apply read_quoted; assumption.
Qed.

Lemma parsed_entry_reads_back_witness :
  read_line ∅ ("B=" +:+ dq +:+ "hello world" +:+ dq)
  = Ret (<["B":="hello world"]> ∅).
Proof.
  apply (parsed_entry_reads_back sample_file sample_values "B" "hello world" ∅);
    [vm_compute; reflexivity | reflexivity].
Defined.

(** X24. White space around a line does not count: indentation, and
    white space before the end of the line, the end of line itself
    included, change nothing of what the line does. *)
Theorem line_padding_ignored a line b fv :
  all_chars isspace a = true ->
  all_chars isspace b = true ->
  read_line fv (a +:+ line +:+ b) = read_line fv line.
Proof.
  intros Ha Hb. unfold read_line, strip.
  rewrite (PyStrMore.strip_by_pad isspace a line b Ha Hb). reflexivity.
Qed.

Lemma line_padding_ignored_witness :
  read_line ∅ ("  " +:+ "A = 1" +:+ (" " +:+ nl)) = read_line ∅ "A = 1".
Proof. apply (line_padding_ignored "  " "A = 1" (" " +:+ nl) ∅); reflexivity. Defined.

(** X25. A line without "=", and a line whose first character after
    white space is "#", can stand anywhere in the file, or be left out:
    the mapping is the same. *)
Theorem ignored_line_anywhere lines1 line lines2 fv :
  contains "=" (strip line) = false \/ startswith "#" (strip line) = true ->
  read_lines fv (lines1 ++ line :: lines2) = read_lines fv (lines1 ++ lines2).
Proof.
  intros H. rewrite !ConfigFacts.read_lines_app.
  destruct (read_lines fv lines1) as [fv1|e]; [|reflexivity]. simpl.
  rewrite (ConfigFacts.read_line_skip fv1 line H). reflexivity.
Qed.

Lemma ignored_line_anywhere_witness :
  read_lines ∅ (["A=1"] ++ "# B=2" :: ["C=3"]) = read_lines ∅ (["A=1"] ++ ["C=3"]).
Proof.
  apply (ignored_line_anywhere ["A=1"] "# B=2" ["C=3"] ∅). right. reflexivity.
Defined.

(** X26. The order of two lines that follow each other counts only when
    they assign the same key: two lines that assign different keys can
    be exchanged. *)
Theorem lines_of_different_keys_commute lines1 line1 line2 lines2
    (k1 v1 k2 v2 : string) fv :
  (forall fv', read_line fv' line1 = Ret (<[k1:=v1]> fv')) ->
  (forall fv', read_line fv' line2 = Ret (<[k2:=v2]> fv')) ->
  k1 <> k2 ->
  read_lines fv (lines1 ++ line1 :: line2 :: lines2)
  = read_lines fv (lines1 ++ line2 :: line1 :: lines2).
Proof.
  intros H1 H2 Hne. rewrite !ConfigFacts.read_lines_app.
  destruct (read_lines fv lines1) as [fv1|e]; [|reflexivity]. simpl.
  rewrite !H1, !H2. simpl. rewrite !H1, !H2. simpl.
  rewrite (insert_insert_ne fv1 k1 k2 v1 v2 Hne). reflexivity.
Qed.

Lemma lines_of_different_keys_commute_witness :
  read_lines ∅ ([] ++ "A=1" :: "B=2" :: ["A=3"])
  = read_lines ∅ ([] ++ "B=2" :: "A=1" :: ["A=3"]).
Proof.
  apply (lines_of_different_keys_commute [] "A=1" "B=2" ["A=3"]
           "A" "1" "B" "2" ∅).
  - intros fv'. reflexivity.
  - intros fv'. reflexivity.
  - discriminate.
Defined.

End ParseMore.
